(** * rivercatchment: the model layer ([catchment/models.py])

    A shallow embedding of the daily aggregation functions, the threshold
    test and the MeasurementSeries / Site / Catchment classes, together with
    the part of pandas they call.

    Conventions.
    - A pandas [Timestamp] is its integer value, nanoseconds since the epoch;
      a [datetime.date] is its day number since the epoch.
    - A numeric cell is [option Q]: [None] is NaN (an absent reading).  The
      kernels [sum_kernel] and [mean_kernel] idealise the arithmetic as exact
      rational arithmetic; [daily_in] leaves the arithmetic of each column
      open.
    - A Series passed to a method is an object; where that matters the
      Series are kept in a store ([MeasurementSeriesRef], [SiteRef]).
    - A Python call either returns or raises: the type [py]. *)

From Stdlib Require Import String.
From Stdlib Require Import List ZArith QArith Bool Lia Sorted Permutation.
Import ListNotations.

Local Open Scope Z_scope.
Local Open Scope list_scope.

(** ** Python results *)

Inductive exn : Type :=
| KeyError (key : string)
| NameError (name : string).

Inductive py (A : Type) : Type :=
| Ok (a : A)
| Raise (e : exn).

Arguments Ok {A} a.
Arguments Raise {A} e.

Definition bind {A B} (m : py A) (k : A -> py B) : py B :=
  match m with
  | Ok a => k a
  | Raise e => Raise e
  end.

Notation "x <- m ;; k" := (bind m (fun x => k))
  (at level 61, m at next level, right associativity).

(** ** pandas: cells, frames and series *)

Abbreviation cell := (option Q) (only parsing).

Abbreviation Timestamp := Z (only parsing).
Abbreviation Date := Z (only parsing).

Definition ns_per_day : Z := 86400000000000.

(** [Timestamp.date()]: the time of day is dropped. *)
Definition date (t : Timestamp) : Date := t / ns_per_day.

(** A frame holds its row labels, its column labels and its cells row by
    row, as in [pd.DataFrame(data=[[..], ..], index=.., columns=..)]. *)
Record DataFrame : Type := {
  index : list Z;
  columns : list string;
  values : list (list cell)
}.

Record Series : Type := {
  s_name : option string;
  s_items : list (Z * cell)
}.

Fixpoint position {A} (eqb : A -> A -> bool) (x : A) (l : list A) : option nat :=
  match l with
  | [] => None
  | y :: l' => if eqb x y then Some O
               else match position eqb x l' with
                    | Some n => Some (S n)
                    | None => None
                    end
  end.

Definition column_position (c : string) (data : DataFrame) : option nat :=
  position String.eqb c (columns data).

Definition at_column (j : nat) (row : list cell) : cell := nth j row None.

Fixpoint nodupb (l : list string) : bool :=
  match l with
  | [] => true
  | x :: l' => negb (existsb (String.eqb x) l') && nodupb l'
  end.

(** The wide table of the data model: one row of cells per row label, one
    cell per column in every row, and no column label twice. *)
Definition wide_tableb (data : DataFrame) : bool :=
  Nat.eqb (length (values data)) (length (index data))
  && forallb (fun row => Nat.eqb (length row) (length (columns data))) (values data)
  && nodupb (columns data).

Definition wide_table (data : DataFrame) : Prop := wide_tableb data = true.

(** [data[key]]: the column as a series, [KeyError] for an unknown label. *)
Definition getitem (data : DataFrame) (key : string) : py Series :=
  match column_position key data with
  | Some j => Ok {| s_name := Some key;
                    s_items := combine (index data) (map (at_column j) (values data)) |}
  | None => Raise (KeyError key)
  end.

(** [data.loc[r, c]] on a frame. *)
Definition loc (data : DataFrame) (r : Z) (c : string) : option cell :=
  match position Z.eqb r (index data), column_position c data with
  | Some i, Some j =>
      match nth_error (values data) i with
      | Some row => nth_error row j
      | None => None
      end
  | _, _ => None
  end.

(** ** pandas: groupby and its reduction kernels

    [data.groupby(keys)] with the defaults [sort=True], [dropna=True]; the
    reductions skip NaN.  A kernel keeps one accumulator per group and
    column, feeds it the present cells in row order and finishes it into the
    output cell. *)

Record Kernel : Type := {
  acc : Type;
  init : acc;
  step : acc -> Q -> acc;
  finish : acc -> cell
}.

Definition observe (K : Kernel) (a : acc K) (c : cell) : acc K :=
  match c with
  | Some v => step K a v
  | None => a
  end.

Definition accumulate_row (K : Kernel) (accs : list (acc K)) (row : list cell)
  : list (acc K) :=
  map (fun p => observe K (fst p) (snd p)) (combine accs row).

Definition fresh (K : Kernel) (ncols : nat) : list (acc K) := repeat (init K) ncols.

(** The groups are kept in ascending key order ([sort=True]). *)
Fixpoint upsert (K : Kernel) (ncols : nat) (d : Z) (row : list cell)
  (groups : list (Z * list (acc K))) : list (Z * list (acc K)) :=
  match groups with
  | [] => [(d, accumulate_row K (fresh K ncols) row)]
  | (d', accs) :: rest =>
      if d <? d' then (d, accumulate_row K (fresh K ncols) row) :: groups
      else if d =? d' then (d', accumulate_row K accs row) :: rest
      else (d', accs) :: upsert K ncols d row rest
  end.

Definition accumulate (K : Kernel) (ncols : nat) (entries : list (Z * list cell))
  : list (Z * list (acc K)) :=
  fold_left (fun groups e => upsert K ncols (fst e) (snd e) groups) entries [].

Record DataFrameGroupBy : Type := {
  obj : DataFrame;
  keys : list Z
}.

Definition groupby (data : DataFrame) (by_ : list Z) : DataFrameGroupBy :=
  {| obj := data; keys := by_ |}.

Definition agg (K : Kernel) (g : DataFrameGroupBy) : DataFrame :=
  let groups :=
    accumulate K (length (columns (obj g))) (combine (keys g) (values (obj g))) in
  {| index := map fst groups;
     columns := columns (obj g);
     values := map (fun grp => map (finish K) (snd grp)) groups |}.

Definition Qlt_bool (a b : Q) : bool := negb (Qle_bool b a).

Definition of_nat (n : nat) : Q := inject_Z (Z.of_nat n).

(** [group_sum]: running sum and number of observations; the cell is NaN
    when fewer than [min_count] values were seen. *)
Definition sum_kernel (min_count : nat) : Kernel :=
  {| acc := nat * Q;
     init := (O, 0%Q);
     step := fun a v => (S (fst a), Qplus (snd a) v);
     finish := fun a => if Nat.ltb (fst a) min_count then None else Some (snd a) |}.

(** [group_mean]: sum over observations, NaN for no observation. *)
Definition mean_kernel : Kernel :=
  {| acc := nat * Q;
     init := (O, 0%Q);
     step := fun a v => (S (fst a), Qplus (snd a) v);
     finish := fun a => match fst a with
                        | O => None
                        | S _ => Some (Qdiv (snd a) (of_nat (fst a)))
                        end |}.

(** [group_max] / [group_min]: the running extreme, replaced on a strictly
    better value; NaN for no observation. *)
Definition max_kernel : Kernel :=
  {| acc := option Q;
     init := None;
     step := fun a v => match a with
                        | None => Some v
                        | Some m => if Qlt_bool m v then Some v else Some m
                        end;
     finish := fun a => a |}.

Definition min_kernel : Kernel :=
  {| acc := option Q;
     init := None;
     step := fun a v => match a with
                        | None => Some v
                        | Some m => if Qlt_bool v m then Some v else Some m
                        end;
     finish := fun a => a |}.

(** [group_count]: the number of present cells. *)
Definition count_kernel : Kernel :=
  {| acc := nat;
     init := O;
     step := fun a _ => S a;
     finish := fun a => Some (of_nat a) |}.

(** [GroupBy.sum(min_count=0)], [.mean()], [.max()], [.min()], [.count()]. *)
Definition gb_sum (g : DataFrameGroupBy) : DataFrame := agg (sum_kernel 0) g.
Definition gb_mean (g : DataFrameGroupBy) : DataFrame := agg mean_kernel g.
Definition gb_max (g : DataFrameGroupBy) : DataFrame := agg max_kernel g.
Definition gb_min (g : DataFrameGroupBy) : DataFrame := agg min_kernel g.
Definition gb_count (g : DataFrameGroupBy) : DataFrame := agg count_kernel g.

(** [data.index.date] *)
Definition index_date (data : DataFrame) : list Date := map date (index data).

(** ** models.py: daily statistics and the threshold test *)

Definition daily_total (data : DataFrame) : DataFrame :=
  gb_sum (groupby data (index_date data)).

Definition daily_mean (data : DataFrame) : DataFrame :=
  gb_mean (groupby data (index_date data)).

Definition daily_max (data : DataFrame) : DataFrame :=
  gb_max (groupby data (index_date data)).

Definition daily_min (data : DataFrame) : DataFrame :=
  gb_min (groupby data (index_date data)).

Definition daily_count (data : DataFrame) : DataFrame :=
  gb_count (groupby data (index_date data)).

(** [x > threshold] on a float: NaN compares false. *)
Definition gt (x : cell) (threshold : Q) : bool :=
  match x with
  | Some v => Qlt_bool threshold v
  | None => false
  end.

Definition data_above_threshold (site_id : string) (data : DataFrame) (threshold : Q)
  : py (list bool) :=
  column <- getitem data site_id ;;
  Ok (map (fun x => gt x threshold) (map snd (s_items column))).

(** [pd.concat(objs)] on series: the items one after the other; the name
    is kept only when all objects agree on it. *)
Definition name_eqb (a b : option string) : bool :=
  match a, b with
  | Some x, Some y => String.eqb x y
  | None, None => true
  | _, _ => false
  end.

Definition consensus_name (objs : list Series) : option string :=
  match objs with
  | [] => None
  | o :: rest =>
      if forallb (fun o' => name_eqb (s_name o') (s_name o)) rest
      then s_name o else None
  end.

Definition concat (objs : list Series) : Series :=
  {| s_name := consensus_name objs;
     s_items := flat_map s_items objs |}.

(** [series.name = n] *)
Definition set_name (s : Series) (n : string) : Series :=
  {| s_name := Some n; s_items := s_items s |}.

(** ** Python dictionaries: insertion-ordered, one entry per key *)

Section Dict.
Context {V : Type}.

Definition dict := list (string * V).

Definition dict_keys (d : dict) : list string := map fst d.

Fixpoint dict_get (k : string) (d : dict) : option V :=
  match d with
  | [] => None
  | (k', v) :: d' => if String.eqb k k' then Some v else dict_get k d'
  end.

(** [k in d.keys()] *)
Definition dict_contains (k : string) (d : dict) : bool :=
  existsb (String.eqb k) (dict_keys d).

(** [d[k] = v]: an existing key keeps its place, a new one goes last. *)
Fixpoint dict_set (k : string) (v : V) (d : dict) : dict :=
  match d with
  | [] => [(k, v)]
  | (k', v') :: d' =>
      if String.eqb k k' then (k', v) :: d' else (k', v') :: dict_set k v d'
  end.
End Dict.

Arguments dict V : clear implicits.

(** ** Module globals

    A global name is looked up when the statement that mentions it runs; an
    unbound one raises [NameError]. *)

Definition global {A} (name : string) (binding : option A) : py A :=
  match binding with
  | Some a => Ok a
  | None => Raise (NameError name)
  end.

(** What [models.py] would use of geopandas, over any type [G] of
    GeoDataFrames. *)
Record GeoPandas (G : Type) : Type := {
  GeoDataFrame : G;
  GeoDataFrame_points : option Q -> option Q -> G;
  GeoDataFrame_from_file : string -> G
}.

Arguments GeoDataFrame {G} _.
Arguments GeoDataFrame_points {G} _ _ _.
Arguments GeoDataFrame_from_file {G} _ _.

Record Globals (G : Type) : Type := {
  gpd : option (GeoPandas G);
  sjoin : option (G -> G -> G)
}.

Arguments gpd {G} _.
Arguments sjoin {G} _.

(** The module as written: its only import is [import pandas as pd]; it
    binds neither [gpd] nor [sjoin]. *)
Definition models_py {G : Type} : Globals G :=
  {| gpd := None; sjoin := None |}.

(** Truth value of [None] or a number, and of [None] or a string. *)
Definition truthy (x : option Q) : bool :=
  match x with
  | Some q => negb (Qeq_bool q 0)
  | None => false
  end.

Definition truthy_str (x : option string) : bool :=
  match x with
  | Some EmptyString => false
  | Some _ => true
  | None => false
  end.

(** ** models.py: MeasurementSeries *)

Module MeasurementSeries.

Record t : Type := {
  series : Series;
  name : string;
  units : option string
}.

Definition __init__ (series_ : Series) (name_ : string) (units_ : option string) : t :=
  {| series := set_name series_ name_; name := name_; units := units_ |}.

Definition add_measurement (self : t) (data : Series) : t :=
  let self1 := {| series := concat [series self; data];
                  name := name self; units := units self |} in
  {| series := set_name (series self1) (name self1);
     name := name self1; units := units self1 |}.

Definition __str__ (self : t) : string :=
  match units self with
  | Some u => if truthy_str (Some u)
              then (name self ++ " (" ++ u ++ ")")%string
              else name self
  | None => name self
  end.

End MeasurementSeries.

(** ** models.py: Site *)

Module Site.

Record t (G : Type) : Type := {
  name : string;
  measurements : dict MeasurementSeries.t;
  location : G
}.

Arguments name {G} _.
Arguments measurements {G} _.
Arguments location {G} _.

Section Methods.
Context {G : Type}.

Definition __init__ (globals : Globals G) (name_ : string)
  (longitude latitude : option Q) : py (t G) :=
  if truthy longitude && truthy latitude then
    gpd_ <- global "gpd" (gpd globals) ;;
    Ok {| name := name_; measurements := [];
          location := GeoDataFrame_points gpd_ longitude latitude |}
  else
    gpd_ <- global "gpd" (gpd globals) ;;
    Ok {| name := name_; measurements := [];
          location := GeoDataFrame gpd_ |}.

Definition add_measurement (self : t G) (measurement_id : string)
  (data : Series) (units : option string) : t G :=
  if dict_contains measurement_id (measurements self) then
    match dict_get measurement_id (measurements self) with
    | Some m =>
        {| name := name self;
           measurements := dict_set measurement_id
                             (MeasurementSeries.add_measurement m data)
                             (measurements self);
           location := location self |}
    | None => self
    end
  else
    {| name := name self;
       measurements := dict_set measurement_id
                         (MeasurementSeries.__init__ data measurement_id units)
                         (measurements self);
       location := location self |}.
End Methods.

End Site.

(** ** models.py: Catchment *)

Module Catchment.

Record t (G : Type) : Type := {
  name : string;
  sites : dict (Site.t G);
  area : G
}.

Arguments name {G} _.
Arguments sites {G} _.
Arguments area {G} _.

Section Methods.
Context {G : Type}.
Variable size : G -> nat.

Definition __init__ (globals : Globals G) (name_ : string)
  (shapefile : option string) : py (t G) :=
  if truthy_str shapefile then
    gpd_ <- global "gpd" (gpd globals) ;;
    Ok {| name := name_; sites := [];
          area := GeoDataFrame_from_file gpd_
                    (match shapefile with Some f => f | None => EmptyString end) |}
  else
    gpd_ <- global "gpd" (gpd globals) ;;
    Ok {| name := name_; sites := []; area := GeoDataFrame gpd_ |}.

(** The condition of the first [if] of [add_site]:
    [self.area.size and new_site.location.size and
     not sjoin(new_site.location, self.area).size]. *)
Definition outside (globals : Globals G) (self : t G) (new_site : Site.t G)
  : py bool :=
  if Nat.eqb (size (area self)) 0 then Ok false
  else if Nat.eqb (size (Site.location new_site)) 0 then Ok false
  else
    sjoin_ <- global "sjoin" (sjoin globals) ;;
    Ok (Nat.eqb (size (sjoin_ (Site.location new_site) (area self))) 0).

(** The [for site in self.sites] loop: is some key equal to the name. *)
Fixpoint already_added (site_keys : list string) (new_name : string) : bool :=
  match site_keys with
  | [] => false
  | site :: rest =>
      if String.eqb site new_name then true else already_added rest new_name
  end.

Definition not_within_message (self : t G) (new_site : Site.t G) : string :=
  (Site.name new_site ++ " not within " ++ name self ++ " catchment")%string.

Definition already_added_message (new_site : Site.t G) : string :=
  (Site.name new_site ++ " has already been added to site list")%string.

(** Returns the catchment after the call and the lines printed. *)
Definition add_site (globals : Globals G) (self : t G) (new_site : Site.t G)
  : py (t G * list string) :=
  refused <- outside globals self new_site ;;
  if refused then Ok (self, [not_within_message self new_site])
  else if already_added (dict_keys (sites self)) (Site.name new_site)
  then Ok (self, [already_added_message new_site])
  else Ok ({| name := name self;
              sites := dict_set (Site.name new_site) new_site (sites self);
              area := area self |}, []).
End Methods.

End Catchment.

(** ** The five daily functions by reducer, and what a reducer computes *)

Inductive Reducer : Type := Total | Mean | Max | Min | Count.

Definition daily (r : Reducer) (data : DataFrame) : DataFrame :=
  match r with
  | Total => daily_total data
  | Mean => daily_mean data
  | Max => daily_max data
  | Min => daily_min data
  | Count => daily_count data
  end.

(** The rows of [data] whose timestamp falls on date [d], in row order. *)
Definition rows_on (d : Date) (data : DataFrame) : list (list cell) :=
  map snd (filter (fun e => date (fst e) =? d) (combine (index data) (values data))).

Fixpoint present (cells : list cell) : list Q :=
  match cells with
  | [] => []
  | Some v :: rest => v :: present rest
  | None :: rest => present rest
  end.

(** The (date, column) partition: the present values of column [c] on the
    rows of date [d]. *)
Definition partition_values (data : DataFrame) (d : Date) (c : string) : list Q :=
  match column_position c data with
  | Some j => present (map (at_column j) (rows_on d data))
  | None => []
  end.

Definition Qsum (vals : list Q) : Q := fold_right Qplus 0%Q vals.

(** [reduces r vals out]: [out] is the reduction of the values [vals] by
    [r], stated without reference to how it is computed. *)
Definition reduces (r : Reducer) (vals : list Q) (out : cell) : Prop :=
  match r with
  | Total => exists s, out = Some s /\ (s == Qsum vals)%Q
  | Mean =>
      match vals with
      | [] => out = None
      | _ => exists m, out = Some m /\ (m * of_nat (length vals) == Qsum vals)%Q
      end
  | Max =>
      match vals with
      | [] => out = None
      | _ => exists m, out = Some m /\ In m vals /\ Forall (fun v => (v <= m)%Q) vals
      end
  | Min =>
      match vals with
      | [] => out = None
      | _ => exists m, out = Some m /\ In m vals /\ Forall (fun v => (m <= v)%Q) vals
      end
  | Count => out = Some (of_nat (length vals))
  end.


Definition cell_eqb (a b : cell) : bool :=
  match a, b with
  | Some x, Some y => Qeq_bool x y
  | None, None => true
  | _, _ => false
  end.

Fixpoint list_eqb {A} (eqb : A -> A -> bool) (l1 l2 : list A) : bool :=
  match l1, l2 with
  | [], [] => true
  | x :: l1', y :: l2' => eqb x y && list_eqb eqb l1' l2'
  | _, _ => false
  end.

(** [pandas.testing.assert_frame_equal], up to the idealised numbers. *)
Definition frame_eqb (a b : DataFrame) : bool :=
  list_eqb Z.eqb (index a) (index b)
  && list_eqb String.eqb (columns a) (columns b)
  && list_eqb (list_eqb cell_eqb) (values a) (values b).

(** Reading the groups of a kernel run: the accumulators of key [d], and the
    rows an entry list holds under key [d]. *)
Fixpoint find_group {A} (d : Z) (groups : list (Z * A)) : option A :=
  match groups with
  | [] => None
  | (d', a) :: rest => if d =? d' then Some a else find_group d rest
  end.

Definition select (d : Z) (entries : list (Z * list cell)) : list (list cell) :=
  map snd (filter (fun e => fst e =? d) entries).

Definition sorted_keys {A} (groups : list (Z * A)) : Prop :=
  StronglySorted Z.lt (map fst groups).

Definition or_fresh (K : Kernel) (ncols : nat) (o : option (list (acc K)))
  : list (acc K) :=
  match o with
  | Some accs => accs
  | None => fresh K ncols
  end.

(** The frame a kernel gives on the daily groups of [data]. *)
Definition aggregated (K : Kernel) (data : DataFrame) : DataFrame :=
  agg K (groupby data (index_date data)).

Definition kernel_of (r : Reducer) : Kernel :=
  match r with
  | Total => sum_kernel 0
  | Mean => mean_kernel
  | Max => max_kernel
  | Min => min_kernel
  | Count => count_kernel
  end.


(** The cell in the [i]-th row (by position) under column label [c]. *)
Definition cell_at (data : DataFrame) (i : nat) (c : string) : option cell :=
  match nth_error (values data) i, column_position c data with
  | Some row, Some j => nth_error row j
  | _, _ => None
  end.

(** ** A small geometry to run [Site] and [Catchment] on

    A frame holds at most one shape; [box_sjoin] keeps the point when it
    lies in the box.  [with_geopandas] is the module as it would be with
    both names imported. *)

Inductive shape : Type :=
| Empty
| PointAt (x y : Q)
| Box (x0 y0 x1 y1 : Q).

Definition shape_size (g : shape) : nat :=
  match g with
  | Empty => 0
  | _ => 1
  end.

Definition box_sjoin (left_df right_df : shape) : shape :=
  match left_df, right_df with
  | PointAt x y, Box x0 y0 x1 y1 =>
      if Qle_bool x0 x && Qle_bool x x1 && Qle_bool y0 y && Qle_bool y y1
      then left_df else Empty
  | _, _ => Empty
  end.

Definition shape_geopandas : GeoPandas shape :=
  {| GeoDataFrame := Empty;
     GeoDataFrame_points := fun lon lat =>
       match lon, lat with
       | Some x, Some y => PointAt x y
       | _, _ => Empty
       end;
     GeoDataFrame_from_file := fun _ => Box 0 0 10 10 |}.

Definition with_geopandas : Globals shape :=
  {| gpd := Some shape_geopandas; sjoin := Some box_sjoin |}.

Definition site_S1 (geometry : shape) : Site.t shape :=
  {| Site.name := "S1"; Site.measurements := []; Site.location := geometry |}.

Definition catchment_C1 (members : dict (Site.t shape)) (geometry : shape)
  : Catchment.t shape :=
  {| Catchment.name := "C1"; Catchment.sites := members; Catchment.area := geometry |}.

(** ** The frames of [tests/test_models.py] *)

Definition at_time (day : Date) (hour minute : Z) : Timestamp :=
  day * ns_per_day + (hour * 3600 + minute * 60) * 1000000000.

Definition d2000_01_01 : Date := 10957.

Definition three_hours : list Timestamp :=
  [at_time d2000_01_01 1 0; at_time d2000_01_01 2 0; at_time d2000_01_01 3 0].

Definition ints (rows : list (list Z)) : list (list cell) :=
  map (map (fun z => Some (inject_Z z))) rows.

Definition frame_AB (rows : list (list Z)) : DataFrame :=
  {| index := three_hours; columns := ["A"; "B"]%string; values := ints rows |}.

Definition frame_ABC (rows : list (list Z)) : DataFrame :=
  {| index := three_hours; columns := ["A"; "B"; "C"]%string; values := ints rows |}.

Definition expected (cols : list string) (row : list Z) : DataFrame :=
  {| index := [d2000_01_01]; columns := cols; values := ints [row] |}.

(** A table with a gap: site B has no reading on the second day. *)
Definition gap_table : DataFrame :=
  {| index := [at_time d2000_01_01 9 0; at_time (d2000_01_01 + 1) 9 0];
     columns := ["A"; "B"]%string;
     values := [[Some 1%Q; Some 2%Q]; [Some 3%Q; None]] |}.

(** ** models.py: read_variable_from_csv

    The function is modelled from the point where [read_csv] and
    [to_datetime] have produced the dataset: one reading per line of the
    file, with its parsed date, its site and its rainfall cell (NaN for an
    empty field).  What follows is the pivot of lines 28 to 35. *)

Record Reading : Type := {
  r_date : Timestamp;
  r_site : string;
  r_rainfall : cell
}.

(** [Series.unique()]: the values in order of first appearance. *)
Definition unique {A} (eqb : A -> A -> bool) (l : list A) : list A :=
  fold_left (fun seen x => if existsb (eqb x) seen then seen else seen ++ [x]) l [].

(** [Index.is_unique] *)
Fixpoint is_unique (labels : list Z) : bool :=
  match labels with
  | [] => true
  | t :: rest => negb (existsb (Z.eqb t) rest) && is_unique rest
  end.

(** The value a series holds at label [t], NaN when it has none. *)
Definition value_at (items : list (Z * cell)) (t : Z) : cell :=
  match find_group t items with
  | Some c => c
  | None => None
  end.

(** Aligning a series on the index of the frame it is assigned to: taken as
    it is when the labels are the frame's, looked up label by label when
    they are distinct, refused ([ValueError], no value) when a label
    repeats. *)
Definition reindex (items : list (Z * cell)) (target : list Z) : option (list cell) :=
  if list_eqb Z.eqb (map fst items) target then Some (map snd items)
  else if is_unique (map fst items) then Some (map (value_at items) target)
  else None.

Fixpoint replace_nth {A} (j : nat) (x : A) (l : list A) : list A :=
  match l, j with
  | [], _ => []
  | _ :: l', O => x :: l'
  | y :: l', S j' => y :: replace_nth j' x l'
  end.

(** Storing a column of cells under [key]: in place for a label the frame
    has, as a new last column otherwise. *)
Definition set_column (data : DataFrame) (key : string) (col : list cell) : DataFrame :=
  match column_position key data with
  | Some j =>
      {| index := index data;
         columns := columns data;
         values := map (fun p => replace_nth j (snd p) (fst p))
                     (combine (values data) col) |}
  | None =>
      {| index := index data;
         columns := columns data ++ [key];
         values := map (fun p => fst p ++ [snd p]) (combine (values data) col) |}
  end.

(** [data[key] = series] *)
Definition setitem (data : DataFrame) (key : string) (items : list (Z * cell))
  : option DataFrame :=
  match reindex items (index data) with
  | Some col => Some (set_column data key col)
  | None => None
  end.

(** [pd.DataFrame(index=labels)] *)
Definition new_frame (labels : list Z) : DataFrame :=
  {| index := labels; columns := []; values := map (fun _ => []) labels |}.

(** [data.sort_index()]: rows in ascending label order, rows of equal
    label in their former order. *)
Fixpoint insert_row (t : Z) (row : list cell) (sorted : list (Z * list cell))
  : list (Z * list cell) :=
  match sorted with
  | [] => [(t, row)]
  | (t', row') :: rest =>
      if t <=? t' then (t, row) :: sorted
      else (t', row') :: insert_row t row rest
  end.

Definition sort_index (data : DataFrame) : DataFrame :=
  let sorted := fold_right (fun e acc => insert_row (fst e) (snd e) acc) []
                  (combine (index data) (values data)) in
  {| index := map fst sorted; columns := columns data; values := map snd sorted |}.

(** [dataset[dataset['Site'] == site].set_index('Date')["Rainfall (mm)"]] *)
Definition site_series (dataset : list Reading) (site : string) : list (Z * cell) :=
  map (fun r => (r_date r, r_rainfall r))
    (filter (fun r => String.eqb (r_site r) site) dataset).

Inductive csv_result : Type :=
| Returned (data : DataFrame)
| ValueError.

Definition read_variable_from_csv (dataset : list Reading) : csv_result :=
  let newdataset := new_frame (unique Z.eqb (map r_date dataset)) in
  let filled :=
    fold_left
      (fun frame site =>
         match frame with
         | Some f => setitem f site (site_series dataset site)
         | None => None
         end)
      (unique String.eqb (map r_site dataset)) (Some newdataset) in
  match filled with
  | Some f => Returned (sort_index f)
  | None => ValueError
  end.

(** The frame with row labels [labels], columns [sites], and in each cell
    the reading of the site at the label. *)
Definition pivot (dataset : list Reading) (labels : list Z) (sites : list string)
  : DataFrame :=
  {| index := labels;
     columns := sites;
     values := map (fun t => map (fun s => value_at (site_series dataset s) t) sites)
                 labels |}.

Fixpoint insert_label (t : Z) (sorted : list Z) : list Z :=
  match sorted with
  | [] => [t]
  | t' :: rest => if t <=? t' then t :: sorted else t' :: insert_label t rest
  end.

Definition sort_labels (labels : list Z) : list Z :=
  fold_right insert_label [] labels.

Definition reading_key (r : Reading) : string * Z := (r_site r, r_date r).

Definition is_present (c : cell) : bool :=
  match c with
  | Some _ => true
  | None => false
  end.

(** The readings of [site] on calendar date [d] that carry a value. *)
Definition valued_readings (dataset : list Reading) (site : string) (d : Date)
  : list Reading :=
  filter (fun r => (date (r_date r) =? d) && is_present (r_rainfall r))
    (filter (fun r => String.eqb (r_site r) site) dataset).

Definition readings : list Reading :=
  [ {| r_date := at_time (d2000_01_01 + 1) 0 0; r_site := "FP35"; r_rainfall := Some 3%Q |};
    {| r_date := at_time d2000_01_01 0 0; r_site := "FP35"; r_rainfall := Some 1%Q |};
    {| r_date := at_time d2000_01_01 0 0; r_site := "FP23"; r_rainfall := None |} ].

(** ** The arithmetic of the columns

    pandas adds and divides in the dtype of each column: float64 rounds,
    int64 wraps around.  The rational sums of [sum_kernel] and [mean_kernel]
    idealise that.  Here the arithmetic is left open instead: what a column
    makes of the present values of a group, given in row order, when it
    sums them and when it averages them. *)

Record Arithmetic : Type := {
  column_sum : string -> list Q -> Q;
  column_mean : string -> list Q -> Q
}.

(** The idealised arithmetic: rational sum and quotient. *)
Definition exact_arithmetic : Arithmetic :=
  {| column_sum := fun _ vals => fold_left Qplus vals 0%Q;
     column_mean := fun _ vals =>
       (fold_left Qplus vals 0 / of_nat (length vals))%Q |}.

(** [group_sum] and [group_mean] of a column whose sum is [f], whose mean
    is [f]: the present values are gathered in row order; the sum of no
    value is the 0 the accumulator starts from, the mean of no value is
    NaN. *)
Definition machine_sum_kernel (f : list Q -> Q) (min_count : nat) : Kernel :=
  {| acc := list Q;
     init := [];
     step := fun a v => a ++ [v];
     finish := fun a =>
       if Nat.ltb (length a) min_count then None
       else Some (match a with [] => 0%Q | _ => f a end) |}.

Definition machine_mean_kernel (f : list Q -> Q) : Kernel :=
  {| acc := list Q;
     init := [];
     step := fun a v => a ++ [v];
     finish := fun a => match a with [] => None | _ => Some (f a) end |}.

Definition or_absent (o : option cell) : cell :=
  match o with
  | Some x => x
  | None => None
  end.

(** A reduction whose kernel depends on the column: column [c] of the
    result is column [c] of what the kernel of [c] gives. *)
Definition agg_by_column (K : string -> Kernel) (g : DataFrameGroupBy) : DataFrame :=
  let labels := index (agg count_kernel g) in
  {| index := labels;
     columns := columns (obj g);
     values := map (fun d => map (fun c => or_absent (loc (agg (K c) g) d c))
                               (columns (obj g)))
                 labels |}.

(** [daily_total] and [daily_mean] in the arithmetic [A]. *)
Definition daily_total_in (A : Arithmetic) (data : DataFrame) : DataFrame :=
  agg_by_column (fun c => machine_sum_kernel (column_sum A c) 0)
    (groupby data (index_date data)).

Definition daily_mean_in (A : Arithmetic) (data : DataFrame) : DataFrame :=
  agg_by_column (fun c => machine_mean_kernel (column_mean A c))
    (groupby data (index_date data)).

(** The five daily functions in the arithmetic [A]; maximum, minimum and
    count compare and count, which no dtype rounds. *)
Definition daily_in (A : Arithmetic) (r : Reducer) (data : DataFrame) : DataFrame :=
  match r with
  | Total => daily_total_in A data
  | Mean => daily_mean_in A data
  | Max => daily_max data
  | Min => daily_min data
  | Count => daily_count data
  end.


(** ** Series objects in a store

    [MeasurementSeries.__init__] keeps the Series it is given, the caller's
    object, and renames that object; [add_measurement] replaces it by the
    new object [pd.concat] returns.  To follow an object passed to several
    calls, the Series are kept in a store and named by their address; the
    modules [MeasurementSeriesRef] and [SiteRef] are the two classes with
    the series held by reference. *)

Definition store := list Series.

Definition no_series : Series := {| s_name := None; s_items := [] |}.

Definition deref (st : store) (p : nat) : Series := nth p st no_series.

Fixpoint assign (st : store) (p : nat) (s : Series) : store :=
  match st, p with
  | [], _ => []
  | _ :: st', O => s :: st'
  | x :: st', S p' => x :: assign st' p' s
  end.

(** [obj.name = n] on the object at address [p] *)
Definition rename (st : store) (p : nat) (n : string) : store :=
  assign st p (set_name (deref st p) n).

(** A new object: the store with it, and its address. *)
Definition alloc (st : store) (s : Series) : store * nat :=
  (st ++ [s], length st).

Module MeasurementSeriesRef.

Record t : Type := {
  series : nat;
  name : string;
  units : option string
}.

Definition __init__ (st : store) (series_ : nat) (name_ : string)
  (units_ : option string) : store * t :=
  let self := {| series := series_; name := name_; units := units_ |} in
  (rename st (series self) (name self), self).

Definition add_measurement (st : store) (self : t) (data : nat) : store * t :=
  let new := alloc st (concat [deref st (series self); deref st data]) in
  let self1 := {| series := snd new; name := name self; units := units self |} in
  (rename (fst new) (series self1) (name self1), self1).

(** The object as a value: its series read from the store. *)
Definition view (st : store) (self : t) : MeasurementSeries.t :=
  {| MeasurementSeries.series := deref st (series self);
     MeasurementSeries.name := name self;
     MeasurementSeries.units := units self |}.

End MeasurementSeriesRef.

Module SiteRef.

Record t (G : Type) : Type := {
  name : string;
  measurements : dict MeasurementSeriesRef.t;
  location : G
}.

Arguments name {G} _.
Arguments measurements {G} _.
Arguments location {G} _.

Definition add_measurement {G} (st : store) (self : t G) (measurement_id : string)
  (data : nat) (units : option string) : store * t G :=
  if dict_contains measurement_id (measurements self) then
    match dict_get measurement_id (measurements self) with
    | Some m =>
        let r := MeasurementSeriesRef.add_measurement st m data in
        (fst r,
         {| name := name self;
            measurements := dict_set measurement_id (snd r) (measurements self);
            location := location self |})
    | None => (st, self)
    end
  else
    let r := MeasurementSeriesRef.__init__ st data measurement_id units in
    (fst r,
     {| name := name self;
        measurements := dict_set measurement_id (snd r) (measurements self);
        location := location self |}).

(** Every series of the site is an object of the store. *)
Definition valid {G} (st : store) (self : t G) : Prop :=
  forall k m, dict_get k (measurements self) = Some m ->
    (MeasurementSeriesRef.series m < length st)%nat.

(** No measurement id twice, and every registered series named after its
    id, the object and the Series it holds. *)
Definition named {G} (st : store) (self : t G) : Prop :=
  NoDup (dict_keys (measurements self))
  /\ forall k m, dict_get k (measurements self) = Some m ->
       MeasurementSeriesRef.name m = k
       /\ s_name (deref st (MeasurementSeriesRef.series m)) = Some k.

(** What is registered under [k], read as a value. *)
Definition lookup {G} (st : store) (self : t G) (k : string)
  : option MeasurementSeries.t :=
  option_map (MeasurementSeriesRef.view st) (dict_get k (measurements self)).

End SiteRef.

Definition rain (t : Z) (v : Q) : Series :=
  {| s_name := None; s_items := [(t, Some v)] |}.

Definition site_R1 (members : dict MeasurementSeriesRef.t) : SiteRef.t shape :=
  {| SiteRef.name := "S1"; SiteRef.measurements := members;
     SiteRef.location := Empty |}.

(** A store of two Series, the first registered as Rainfall in mm. *)
Definition store_R : store :=
  [ {| s_name := Some "Rainfall"%string; s_items := [(1, Some 1%Q)] |}; rain 2 5 ].

Definition rainfall_R : dict MeasurementSeriesRef.t :=
  [ ("Rainfall"%string,
     {| MeasurementSeriesRef.series := 0; MeasurementSeriesRef.name := "Rainfall";
        MeasurementSeriesRef.units := Some "mm"%string |}) ].

(** ** Invariants of sites and catchments *)

(** The entry [Site.add_measurement] leaves under [measurement_id]. *)
Definition merged {G} (self : Site.t G) (measurement_id : string) (data : Series)
  (units : option string) : MeasurementSeries.t :=
  match dict_get measurement_id (Site.measurements self) with
  | Some m => MeasurementSeries.add_measurement m data
  | None => MeasurementSeries.__init__ data measurement_id units
  end.

(** Every site is registered under its own name, and no name occurs twice. *)
Definition catchment_keyed {G} (c : Catchment.t G) : Prop :=
  NoDup (dict_keys (Catchment.sites c))
  /\ forall k s, dict_get k (Catchment.sites c) = Some s -> Site.name s = k.

(** A coordinate Python takes for false: [None] or zero. *)
Definition no_coordinate (x : option Q) : Prop :=
  match x with
  | Some q => (q == 0)%Q
  | None => True
  end.

Example test_daily_mean_zeros :
  frame_eqb (daily_mean (frame_AB [[0; 0]; [0; 0]; [0; 0]]))
            (expected ["A"; "B"]%string [0; 0]) = true.
Proof. vm_compute. reflexivity. Qed.

Example test_daily_mean_integers :
  frame_eqb (daily_mean (frame_AB [[1; 2]; [3; 4]; [5; 6]]))
            (expected ["A"; "B"]%string [3; 4]) = true.
Proof. vm_compute. reflexivity. Qed.

Example test_daily_max_integers :
  frame_eqb (daily_max (frame_AB [[1; 2]; [3; 4]; [5; 6]]))
            (expected ["A"; "B"]%string [5; 6]) = true.
Proof. vm_compute. reflexivity. Qed.

Example test_daily_min_integers :
  frame_eqb (daily_min (frame_AB [[1; 2]; [3; 4]; [5; 6]]))
            (expected ["A"; "B"]%string [1; 2]) = true.
Proof. vm_compute. reflexivity. Qed.

Example test_daily_max_signed :
  frame_eqb (daily_max (frame_ABC [[4; -2; 5]; [1; -6; 2]; [-4; -1; 9]]))
            (expected ["A"; "B"; "C"]%string [4; -1; 9]) = true.
Proof. vm_compute. reflexivity. Qed.

Example test_daily_min_signed :
  frame_eqb (daily_min (frame_ABC [[4; -2; 5]; [1; -6; 2]; [-4; -1; 9]]))
            (expected ["A"; "B"; "C"]%string [-4; -6; 2]) = true.
Proof. vm_compute. reflexivity. Qed.

Example test_daily_count :
  frame_eqb (daily_count (frame_ABC [[0; 0; 0]; [0; 0; 0]; [0; 0; 0]]))
            (expected ["A"; "B"; "C"]%string [3; 3; 3]) = true.
Proof. vm_compute. reflexivity. Qed.

Example daily_total_integers :
  frame_eqb (daily_total (frame_AB [[1; 2]; [3; 4]; [5; 6]]))
            (expected ["A"; "B"]%string [9; 12]) = true.
Proof. vm_compute. reflexivity. Qed.

Example daily_total_gap :
  daily_total gap_table
  = {| index := [d2000_01_01; d2000_01_01 + 1];
       columns := ["A"; "B"]%string;
       values := [[Some (1 # 1); Some (2 # 1)]; [Some (3 # 1); Some (0 # 1)]]%Q |}.
Proof. vm_compute. reflexivity. Qed.

(** * Proofs *)

(** ** Lists and positions *)

Lemma position_Some_nth {A} (eqb : A -> A -> bool) (x : A) (l : list A) (i : nat) :
  position eqb x l = Some i ->
  exists y, nth_error l i = Some y /\ eqb x y = true.
Proof.
  revert i. induction l as [|y l IH]; simpl; intros i H.
  - discriminate.
  - destruct (eqb x y) eqn:E.
    + inversion H; subst. exists y. simpl. auto.
    + destruct (position eqb x l) as [n|] eqn:P; [|discriminate].
      inversion H; subst. simpl. apply IH. reflexivity.
Qed.

Lemma position_In_string (c : string) (l : list string) :
  In c l -> exists j, position String.eqb c l = Some j /\ (j < length l)%nat.
Proof.
  induction l as [|y l IH]; simpl; intros H.
  - contradiction.
  - destruct (String.eqb c y) eqn:E.
    + exists O. split; [reflexivity | lia].
    + destruct H as [H | H].
      * subst. rewrite String.eqb_refl in E. discriminate.
      * destruct (IH H) as [j [Hj Hlt]]. rewrite Hj.
        exists (S j). split; [reflexivity | lia].
Qed.

Lemma position_None_string (c : string) (l : list string) :
  ~ In c l -> position String.eqb c l = None.
Proof.
  induction l as [|y l IH]; simpl; intros H.
  - reflexivity.
  - destruct (String.eqb c y) eqn:E.
    + apply String.eqb_eq in E. subst. exfalso. apply H. left. reflexivity.
    + rewrite IH; [reflexivity | intro; apply H; right; assumption].
Qed.

Lemma position_In_Z (d : Z) (l : list Z) :
  In d l -> exists i, position Z.eqb d l = Some i.
Proof.
  induction l as [|y l IH]; simpl; intros H.
  - contradiction.
  - destruct (d =? y) eqn:E.
    + exists O. reflexivity.
    + destruct H as [H | H].
      * subst. rewrite Z.eqb_refl in E. discriminate.
      * destruct (IH H) as [i Hi]. rewrite Hi. exists (S i). reflexivity.
Qed.

(** ** Shape of a wide table *)

Lemma wide_table_rows (data : DataFrame) :
  wide_table data -> length (values data) = length (index data).
Proof.
  unfold wide_table, wide_tableb. intros H.
  apply andb_prop in H. destruct H as [H _].
  apply andb_prop in H. destruct H as [H _].
  apply Nat.eqb_eq. exact H.
Qed.

Lemma wide_table_cells (data : DataFrame) :
  wide_table data ->
  Forall (fun row => length row = length (columns data)) (values data).
Proof.
  unfold wide_table, wide_tableb. intros H.
  apply andb_prop in H. destruct H as [H _].
  apply andb_prop in H. destruct H as [_ H].
  rewrite forallb_forall in H. apply Forall_forall. intros row Hin.
  apply Nat.eqb_eq. apply H. exact Hin.
Qed.

(** ** One row of accumulation *)

Section KernelRun.
Variable K : Kernel.

Lemma accumulate_row_length (accs : list (acc K)) (row : list cell) :
  length accs = length row ->
  length (accumulate_row K accs row) = length row.
Proof.
  intros H. unfold accumulate_row.
  rewrite length_map, length_combine. lia.
Qed.

Lemma accumulate_row_nth (accs : list (acc K)) (row : list cell) (j : nat) :
  length accs = length row -> (j < length row)%nat ->
  nth j (accumulate_row K accs row) (init K)
  = observe K (nth j accs (init K)) (at_column j row).
Proof.
  revert row j. induction accs as [|a accs IH]; intros [|c row] j Hlen Hj;
    simpl in *; try lia; try discriminate.
  destruct j as [|j].
  - reflexivity.
  - unfold at_column. simpl. apply IH; lia.
Qed.

Lemma fold_rows_length (rows : list (list cell)) (accs : list (acc K)) (n : nat) :
  length accs = n -> Forall (fun row => length row = n) rows ->
  length (fold_left (accumulate_row K) rows accs) = n.
Proof.
  revert accs. induction rows as [|row rows IH]; intros accs Ha Hr; simpl.
  - exact Ha.
  - inversion Hr; subst. apply IH; [|assumption].
    rewrite accumulate_row_length; congruence.
Qed.

Lemma fold_rows_nth (rows : list (list cell)) (accs : list (acc K)) (n j : nat) :
  length accs = n -> Forall (fun row => length row = n) rows -> (j < n)%nat ->
  nth j (fold_left (accumulate_row K) rows accs) (init K)
  = fold_left (observe K) (map (at_column j) rows) (nth j accs (init K)).
Proof.
  revert accs. induction rows as [|row rows IH]; intros accs Ha Hr Hj; simpl.
  - reflexivity.
  - inversion Hr; subst. rewrite IH; try assumption.
    + rewrite accumulate_row_nth; [reflexivity | congruence | lia].
    + rewrite accumulate_row_length; congruence.
Qed.

Lemma fold_observe_present (cells : list cell) (a : acc K) :
  fold_left (observe K) cells a = fold_left (step K) (present cells) a.
Proof.
  revert a. induction cells as [|[v|] cells IH]; intros a; simpl; auto.
Qed.

Lemma fresh_nth (n j : nat) : nth j (fresh K n) (init K) = init K.
Proof.
  unfold fresh. revert j. induction n as [|n IH]; intros [|j]; simpl; auto.
Qed.
End KernelRun.

(** ** The groups of a kernel run *)

Section Groups.
Variable K : Kernel.
Variable ncols : nat.

Lemma upsert_keys (d : Z) (row : list cell) (groups : list (Z * list (acc K))) (x : Z) :
  In x (map fst (upsert K ncols d row groups)) <-> x = d \/ In x (map fst groups).
Proof.
  induction groups as [|[d' accs] rest IH]; simpl.
  - intuition.
  - destruct (d <? d') eqn:Hlt; [simpl; intuition|].
    destruct (d =? d') eqn:Heq; simpl.
    + apply Z.eqb_eq in Heq. subst. intuition.
    + rewrite IH. intuition.
Qed.

Lemma upsert_sorted (d : Z) (row : list cell) (groups : list (Z * list (acc K))) :
  sorted_keys groups -> sorted_keys (upsert K ncols d row groups).
Proof.
  unfold sorted_keys.
  induction groups as [|[d' accs] rest IH]; simpl; intros Hs.
  - repeat constructor.
  - apply StronglySorted_inv in Hs. destruct Hs as [Hrest Hhd].
    destruct (d <? d') eqn:Hlt.
    + apply Z.ltb_lt in Hlt. simpl. constructor.
      * constructor; assumption.
      * constructor; [assumption|].
        eapply Forall_impl; [|exact Hhd]. intros; simpl in *; lia.
    + destruct (d =? d') eqn:Heq; simpl.
      * constructor; assumption.
      * constructor; [apply IH; assumption|].
        apply Z.ltb_ge in Hlt. apply Z.eqb_neq in Heq.
        apply Forall_forall. intros x Hx. apply upsert_keys in Hx.
        destruct Hx as [Hx | Hx]; [lia|].
        rewrite Forall_forall in Hhd. apply Hhd. exact Hx.
Qed.

Lemma find_group_below {A} (d : Z) (groups : list (Z * A)) :
  Forall (Z.lt d) (map fst groups) -> find_group d groups = None.
Proof.
  induction groups as [|[d' a] rest IH]; simpl; intros H.
  - reflexivity.
  - inversion H; subst. destruct (d =? d') eqn:E.
    + apply Z.eqb_eq in E. lia.
    + apply IH. assumption.
Qed.

Lemma upsert_find (d : Z) (row : list cell) (groups : list (Z * list (acc K))) (x : Z) :
  sorted_keys groups ->
  find_group x (upsert K ncols d row groups)
  = if x =? d
    then Some (accumulate_row K (or_fresh K ncols (find_group d groups)) row)
    else find_group x groups.
Proof.
  unfold sorted_keys.
  induction groups as [|[d' accs] rest IH]; simpl; intros Hs.
  - destruct (x =? d); reflexivity.
  - apply StronglySorted_inv in Hs. destruct Hs as [Hrest Hhd].
    destruct (d <? d') eqn:Hlt.
    + apply Z.ltb_lt in Hlt. simpl.
      destruct (x =? d) eqn:Hx; [|reflexivity].
      assert (Hne : (d =? d') = false) by (apply Z.eqb_neq; lia).
      rewrite Hne. rewrite find_group_below; [reflexivity|].
      eapply Forall_impl; [|exact Hhd]. intros; simpl in *; lia.
    + destruct (d =? d') eqn:Heq; simpl.
      * apply Z.eqb_eq in Heq. subst d'.
        destruct (x =? d); reflexivity.
      * rewrite (IH Hrest). apply Z.eqb_neq in Heq.
        destruct (x =? d') eqn:Hx'.
        -- apply Z.eqb_eq in Hx'. subst x.
           assert (Hne : (d' =? d) = false) by (apply Z.eqb_neq; lia).
           rewrite Hne. reflexivity.
        -- reflexivity.
Qed.

Lemma accumulate_snoc (entries : list (Z * list cell)) (e : Z * list cell) :
  accumulate K ncols (entries ++ [e])
  = upsert K ncols (fst e) (snd e) (accumulate K ncols entries).
Proof. unfold accumulate. rewrite fold_left_app. reflexivity. Qed.

Lemma select_snoc (x : Z) (entries : list (Z * list cell)) (e : Z * list cell) :
  select x (entries ++ [e])
  = select x entries ++ (if fst e =? x then [snd e] else []).
Proof.
  unfold select. rewrite filter_app, map_app. simpl.
  destruct (fst e =? x); reflexivity.
Qed.

Lemma select_absent (x : Z) (entries : list (Z * list cell)) :
  existsb (Z.eqb x) (map fst entries) = false -> select x entries = [].
Proof.
  unfold select. induction entries as [|e entries IH]; simpl; intros H.
  - reflexivity.
  - apply orb_false_elim in H. destruct H as [H1 H2].
    rewrite Z.eqb_sym in H1. rewrite H1. apply IH. exact H2.
Qed.

Lemma accumulate_sorted (entries : list (Z * list cell)) :
  sorted_keys (accumulate K ncols entries).
Proof.
  induction entries as [|e entries IH] using rev_ind.
  - constructor.
  - rewrite accumulate_snoc. apply upsert_sorted. exact IH.
Qed.

Lemma accumulate_keys (entries : list (Z * list cell)) (x : Z) :
  In x (map fst (accumulate K ncols entries)) <-> In x (map fst entries).
Proof.
  induction entries as [|e entries IH] using rev_ind.
  - simpl. tauto.
  - rewrite accumulate_snoc, upsert_keys, IH, map_app, in_app_iff. simpl.
    intuition.
Qed.

Lemma accumulate_find (entries : list (Z * list cell)) (x : Z) :
  find_group x (accumulate K ncols entries)
  = if existsb (Z.eqb x) (map fst entries)
    then Some (fold_left (accumulate_row K) (select x entries) (fresh K ncols))
    else None.
Proof.
  induction entries as [|e entries IH] using rev_ind.
  - reflexivity.
  - rewrite accumulate_snoc, upsert_find by apply accumulate_sorted.
    rewrite map_app, existsb_app, select_snoc, fold_left_app. simpl.
    destruct (x =? fst e) eqn:Hx.
    + apply Z.eqb_eq in Hx. subst x. rewrite Z.eqb_refl.
      rewrite orb_true_r. rewrite IH.
      destruct (existsb (Z.eqb (fst e)) (map fst entries)) eqn:Hex; simpl.
      * reflexivity.
      * rewrite select_absent by assumption. reflexivity.
    + rewrite Z.eqb_sym in Hx. rewrite Hx. rewrite orb_false_r. simpl.
      exact IH.
Qed.
End Groups.

(** ** The aggregated frame *)

Lemma map_fst_combine {A B} (l : list A) (l' : list B) :
  length l = length l' -> map fst (combine l l') = l.
Proof.
  revert l'. induction l as [|x l IH]; intros [|y l'] H; simpl in *;
    try discriminate; try reflexivity.
  f_equal. apply IH. lia.
Qed.

Lemma map_snd_combine {A B} (l : list A) (l' : list B) :
  length l = length l' -> map snd (combine l l') = l'.
Proof.
  revert l'. induction l as [|x l IH]; intros [|y l'] H; simpl in *;
    try discriminate; try reflexivity.
  f_equal. apply IH. lia.
Qed.

Lemma select_rows_on (data : DataFrame) (d : Date) :
  select d (combine (index_date data) (values data)) = rows_on d data.
Proof.
  unfold select, rows_on, index_date.
  generalize (values data). induction (index data) as [|t ts IH]; intros rows.
  - reflexivity.
  - destruct rows as [|row rows]; [reflexivity|]. simpl.
    destruct (date t =? d); simpl; rewrite IH; reflexivity.
Qed.

Lemma rows_on_cells (data : DataFrame) (d : Date) :
  wide_table data ->
  Forall (fun row => length row = length (columns data)) (rows_on d data).
Proof.
  intros Hw. pose proof (wide_table_cells data Hw) as Hc.
  rewrite Forall_forall in *. intros row Hin. apply Hc.
  unfold rows_on in Hin. apply in_map_iff in Hin.
  destruct Hin as [[t r] [Heq Hin]]. simpl in Heq. subst r.
  apply filter_In in Hin. destruct Hin as [Hin _].
  eapply in_combine_r. exact Hin.
Qed.

Lemma position_find_group {A} (d : Z) (groups : list (Z * A)) (i : nat) :
  position Z.eqb d (map fst groups) = Some i ->
  exists a, nth_error groups i = Some (d, a) /\ find_group d groups = Some a.
Proof.
  revert i. induction groups as [|[d' a] rest IH]; simpl; intros i H.
  - discriminate.
  - destruct (d =? d') eqn:E.
    + inversion H; subst. apply Z.eqb_eq in E. subst. exists a. auto.
    + destruct (position Z.eqb d (map fst rest)) as [n|] eqn:P; [|discriminate].
      inversion H; subst. simpl. apply IH. reflexivity.
Qed.

Lemma existsb_In_Z (d : Z) (l : list Z) : In d l -> existsb (Z.eqb d) l = true.
Proof.
  intros H. apply existsb_exists. exists d. split; [exact H | apply Z.eqb_refl].
Qed.

Section Aggregated.
Variable K : Kernel.
Variable data : DataFrame.
Hypothesis Hwide : wide_table data.

Lemma entries_keys :
  map fst (combine (index_date data) (values data)) = index_date data.
Proof.
  apply map_fst_combine. unfold index_date. rewrite length_map.
  symmetry. apply wide_table_rows. exact Hwide.
Qed.



Lemma agg_index :
  index (aggregated K data)
  = map fst (accumulate K (length (columns data))
               (combine (index_date data) (values data))).
Proof. reflexivity. Qed.

Lemma agg_values :
  values (aggregated K data)
  = map (fun grp => map (finish K) (snd grp))
      (accumulate K (length (columns data))
         (combine (index_date data) (values data))).
Proof. reflexivity. Qed.

Lemma agg_index_In (d : Date) :
  In d (index (aggregated K data)) <-> In d (index_date data).
Proof.
  rewrite agg_index, accumulate_keys, entries_keys. tauto.
Qed.

Lemma agg_shape :
  length (values (aggregated K data)) = length (index (aggregated K data)).
Proof. rewrite agg_index, agg_values, !length_map. reflexivity. Qed.

Lemma agg_loc (d : Date) (c : string) :
  In d (index_date data) -> In c (columns data) ->
  loc (aggregated K data) d c
  = Some (finish K (fold_left (step K) (partition_values data d c) (init K))).
Proof.
  intros Hd Hc.
  destruct (position_In_string c (columns data) Hc) as [j [Hj Hlt]].
  assert (Hin : In d (index (aggregated K data))) by (apply agg_index_In; exact Hd).
  destruct (position_In_Z d (index (aggregated K data)) Hin) as [i Hi].
  unfold loc, column_position. rewrite Hi.
  change (columns (aggregated K data)) with (columns data). rewrite Hj.
  rewrite agg_index in Hi. rewrite agg_values.
  set (n := length (columns data)) in *.
  destruct (position_find_group d _ i Hi) as [a [Hnth Hfind]].
  rewrite accumulate_find, entries_keys in Hfind.
  rewrite (existsb_In_Z d _ Hd) in Hfind.
  inversion Hfind as [Ha]. clear Hfind.
  rewrite select_rows_on in Ha.
  rewrite (map_nth_error _ _ _ Hnth). simpl.
  assert (Hlen : length a = n).
  { subst a. apply fold_rows_length.
    - unfold fresh. apply repeat_length.
    - apply rows_on_cells. exact Hwide. }
  assert (Hja : nth_error a j = Some (nth j a (init K))).
  { apply nth_error_nth'. lia. }
  rewrite (map_nth_error _ _ _ Hja). f_equal. f_equal.
  subst a. rewrite (fold_rows_nth K _ _ n j).
  - rewrite fresh_nth, fold_observe_present.
    unfold partition_values, column_position. rewrite Hj. reflexivity.
  - unfold fresh. apply repeat_length.
  - apply rows_on_cells. exact Hwide.
  - exact Hlt.
Qed.
End Aggregated.

(** ** What the kernels compute *)

Lemma fold_left_Qplus (vals : list Q) (s : Q) :
  (fold_left Qplus vals s == s + Qsum vals)%Q.
Proof.
  revert s. induction vals as [|v vals IH]; intros s; simpl.
  - rewrite Qplus_0_r. reflexivity.
  - rewrite IH. rewrite Qplus_assoc. reflexivity.
Qed.

Lemma sum_run (min_count : nat) (vals : list Q) (n : nat) (s : Q) :
  fold_left (step (sum_kernel min_count)) vals (n, s)
  = ((n + length vals)%nat, fold_left Qplus vals s).
Proof.
  revert n s. induction vals as [|v vals IH]; intros n s; simpl.
  - rewrite Nat.add_0_r. reflexivity.
  - rewrite IH. simpl. f_equal. lia.
Qed.

Lemma mean_run (vals : list Q) (n : nat) (s : Q) :
  fold_left (step mean_kernel) vals (n, s)
  = ((n + length vals)%nat, fold_left Qplus vals s).
Proof. exact (sum_run 0 vals n s). Qed.

Lemma count_run (vals : list Q) (n : nat) :
  fold_left (step count_kernel) vals n = (n + length vals)%nat.
Proof.
  revert n. induction vals as [|v vals IH]; intros n; simpl.
  - lia.
  - rewrite IH. lia.
Qed.

Lemma Qlt_bool_true (a b : Q) : Qlt_bool a b = true -> (a < b)%Q.
Proof.
  unfold Qlt_bool. intros H. apply negb_true_iff in H.
  apply Qnot_le_lt. intro Hle. apply Qle_bool_iff in Hle. congruence.
Qed.

Lemma Qlt_bool_false (a b : Q) : Qlt_bool a b = false -> (b <= a)%Q.
Proof.
  unfold Qlt_bool. intros H. apply negb_false_iff in H.
  apply Qle_bool_iff. exact H.
Qed.

Lemma max_run (vals : list Q) (m : Q) :
  exists m', fold_left (step max_kernel) vals (Some m) = Some m'
             /\ In m' (m :: vals) /\ (m <= m')%Q
             /\ Forall (fun v => (v <= m')%Q) vals.
Proof.
  revert m. induction vals as [|v vals IH]; intros m; simpl.
  - exists m. repeat split; auto. apply Qle_refl.
  - destruct (Qlt_bool m v) eqn:E.
    + destruct (IH v) as [m' [Hrun [Hin [Hle Hall]]]].
      exists m'. repeat split; auto.
      * apply Qlt_bool_true in E. apply Qle_trans with v; [apply Qlt_le_weak|]; assumption.
    + destruct (IH m) as [m' [Hrun [Hin [Hle Hall]]]].
      exists m'. repeat split; auto.
      * destruct Hin as [Hin | Hin]; [left | right; right]; assumption.
      * constructor; [|assumption].
        apply Qlt_bool_false in E. apply Qle_trans with m; assumption.
Qed.

Lemma min_run (vals : list Q) (m : Q) :
  exists m', fold_left (step min_kernel) vals (Some m) = Some m'
             /\ In m' (m :: vals) /\ (m' <= m)%Q
             /\ Forall (fun v => (m' <= v)%Q) vals.
Proof.
  revert m. induction vals as [|v vals IH]; intros m; simpl.
  - exists m. repeat split; auto. apply Qle_refl.
  - destruct (Qlt_bool v m) eqn:E.
    + destruct (IH v) as [m' [Hrun [Hin [Hle Hall]]]].
      exists m'. repeat split; auto.
      * apply Qlt_bool_true in E. apply Qle_trans with v; [|apply Qlt_le_weak]; assumption.
    + destruct (IH m) as [m' [Hrun [Hin [Hle Hall]]]].
      exists m'. repeat split; auto.
      * destruct Hin as [Hin | Hin]; [left | right; right]; assumption.
      * constructor; [|assumption].
        apply Qlt_bool_false in E. apply Qle_trans with m; assumption.
Qed.

Lemma of_nat_S_nonzero (n : nat) : ~ (of_nat (S n) == 0)%Q.
Proof.
  unfold of_nat, inject_Z, Qeq. simpl. lia.
Qed.

Lemma kernel_reduces (r : Reducer) (vals : list Q) :
  reduces r vals
    (finish (kernel_of r) (fold_left (step (kernel_of r)) vals (init (kernel_of r)))).
Proof.
  destruct r; simpl kernel_of.
  - change (init (sum_kernel 0)) with (O, 0%Q). rewrite sum_run. simpl.
    eexists. split; [reflexivity|].
    rewrite fold_left_Qplus. apply Qplus_0_l.
  - change (init mean_kernel) with (O, 0%Q). rewrite mean_run.
    destruct vals as [|v vals]; [reflexivity|].
    cbv beta iota delta [reduces]. 
    change (finish mean_kernel ?a) with
      (match fst a with
       | O => None
       | S _ => Some (Qdiv (snd a) (of_nat (fst a)))
       end).
    cbn [fst snd Nat.add length].
    eexists. split; [reflexivity|].
    rewrite Qmult_comm, Qmult_div_r by apply of_nat_S_nonzero.
    rewrite fold_left_Qplus. apply Qplus_0_l.
  - destruct vals as [|v vals]; [reflexivity|].
    destruct (max_run vals v) as [m' [Hrun [Hin [Hle Hall]]]].
    simpl. simpl in Hrun. rewrite Hrun.
    exists m'. repeat split; auto.
  - destruct vals as [|v vals]; [reflexivity|].
    destruct (min_run vals v) as [m' [Hrun [Hin [Hle Hall]]]].
    simpl. simpl in Hrun. rewrite Hrun.
    exists m'. repeat split; auto.
  - change (init count_kernel) with O. rewrite count_run. reflexivity.
Qed.

Lemma daily_agg (r : Reducer) (data : DataFrame) :
  daily r data = aggregated (kernel_of r) data.
Proof. destruct r; reflexivity. Qed.

(** ** Daily aggregation *)

Lemma gathered (vals a : list Q) :
  fold_left (fun acc0 v => acc0 ++ [v]) vals a = a ++ vals.
Proof.
  revert a. induction vals as [|v vals IH]; intros a; simpl.
  - rewrite app_nil_r. reflexivity.
  - rewrite IH, <- app_assoc. reflexivity.
Qed.

Lemma tabulated_loc (f : Z -> string -> cell) (labels : list Z)
  (cols : list string) (d : Z) (c : string) :
  In d labels -> In c cols ->
  loc {| index := labels; columns := cols;
         values := map (fun t => map (fun s => f t s) cols) labels |} d c
  = Some (f d c).
Proof.
  intros Hd Hc.
  destruct (position_In_Z d labels Hd) as [i Hi].
  destruct (position_In_string c cols Hc) as [j [Hj _]].
  unfold loc, column_position. simpl. rewrite Hi, Hj.
  destruct (position_Some_nth Z.eqb d labels i Hi) as [d' [Hnd He]].
  apply Z.eqb_eq in He. subst d'.
  destruct (position_Some_nth String.eqb c cols j Hj) as [c' [Hnc He]].
  apply String.eqb_eq in He. subst c'.
  rewrite (map_nth_error _ _ _ Hnd).
  rewrite (map_nth_error (fun s => f d s) _ _ Hnc). reflexivity.
Qed.

Section ColumnWise.
Variable K : string -> Kernel.
Variable data : DataFrame.
Hypothesis Hwide : wide_table data.



Lemma agg_by_column_loc (d : Date) (c : string) :
  In d (index_date data) -> In c (columns data) ->
  loc (agg_by_column K (groupby data (index_date data))) d c
  = Some (finish (K c)
            (fold_left (step (K c)) (partition_values data d c) (init (K c)))).
Proof.
  intros Hd Hc. unfold agg_by_column.
  change (columns (obj (groupby data (index_date data)))) with (columns data).
  change (index (agg count_kernel (groupby data (index_date data))))
    with (index (aggregated count_kernel data)).
  rewrite (tabulated_loc
             (fun t s => or_absent (loc (agg (K s) (groupby data (index_date data))) t s))).
  - change (agg (K c) (groupby data (index_date data)))
      with (aggregated (K c) data).
    rewrite agg_loc by assumption. reflexivity.
  - apply (agg_index_In count_kernel data Hwide). exact Hd.
  - exact Hc.
Qed.
End ColumnWise.



(** C2, as stated, fails for [daily_total]: on [gap_table] site B has no
    present value on the second day, and the total there is 0, not absent. *)
Lemma daily_total_empty_partition_is_zero :
  ~ (forall data d c,
       wide_table data -> In d (index_date data) -> In c (columns data) ->
       partition_values data d c = [] ->
       loc (daily_total data) d c = Some None).
Proof.
  intros H.
  specialize (H gap_table (d2000_01_01 + 1) "B"%string).
  assert (Hloc : loc (daily_total gap_table) (d2000_01_01 + 1) "B"%string
                 = Some (Some 0%Q)) by (vm_compute; reflexivity).
  rewrite Hloc in H.
  assert (Hno : Some (Some 0%Q) = Some (@None Q) -> False) by discriminate.
  apply Hno. apply H.
  - reflexivity.
  - vm_compute. right. left. reflexivity.
  - right. left. reflexivity.
  - vm_compute. reflexivity.
Qed.

(** C2, amended. A (date, column) partition without present values gives an
    absent cell in the daily mean, max and min, and 0 in the daily total and
    the daily count. *)
Theorem daily_empty_partition (data : DataFrame) (d : Date) (c : string) :
  wide_table data -> In d (index_date data) -> In c (columns data) ->
  partition_values data d c = [] ->
  loc (daily_mean data) d c = Some None
  /\ loc (daily_max data) d c = Some None
  /\ loc (daily_min data) d c = Some None
  /\ loc (daily_total data) d c = Some (Some 0%Q)
  /\ loc (daily_count data) d c = Some (Some 0%Q).
Proof.
  intros Hw Hd Hc He.
  change (daily_mean data) with (aggregated mean_kernel data).
  change (daily_max data) with (aggregated max_kernel data).
  change (daily_min data) with (aggregated min_kernel data).
  change (daily_total data) with (aggregated (sum_kernel 0) data).
  change (daily_count data) with (aggregated count_kernel data).
  rewrite !agg_loc by assumption. rewrite He.
  repeat split; reflexivity.
Qed.

Lemma daily_empty_partition_witness :
  loc (daily_mean gap_table) (d2000_01_01 + 1) "B"%string = Some None
  /\ loc (daily_max gap_table) (d2000_01_01 + 1) "B"%string = Some None
  /\ loc (daily_min gap_table) (d2000_01_01 + 1) "B"%string = Some None
  /\ loc (daily_total gap_table) (d2000_01_01 + 1) "B"%string = Some (Some 0%Q)
  /\ loc (daily_count gap_table) (d2000_01_01 + 1) "B"%string = Some (Some 0%Q).
Proof.
  apply (daily_empty_partition gap_table (d2000_01_01 + 1) "B"%string).
  - reflexivity.
  - vm_compute. right. left. reflexivity.
  - right. left. reflexivity.
  - vm_compute. reflexivity.
Defined.

(** ** Tables with one row per calendar date *)

Lemma StronglySorted_lt_NoDup (l : list Z) : StronglySorted Z.lt l -> NoDup l.
Proof.
  induction 1 as [|a l Hs IH Hall]; constructor.
  - intro Hin. rewrite Forall_forall in Hall. specialize (Hall a Hin). lia.
  - exact IH.
Qed.


Lemma position_In {A} (eqb : A -> A -> bool) (x : A) (l : list A) (i : nat) :
  (forall a b, eqb a b = true -> a = b) ->
  position eqb x l = Some i -> In x l.
Proof.
  intros Heq H. destruct (position_Some_nth eqb x l i H) as [y [Hn He]].
  apply Heq in He. subst y. eapply nth_error_In. exact Hn.
Qed.








(** ** The threshold test *)

Lemma gt_true (x : cell) (threshold : Q) :
  gt x threshold = true <-> exists v, x = Some v /\ (threshold < v)%Q.
Proof.
  destruct x as [v|]; simpl.
  - split.
    + intros H. exists v. split; [reflexivity | apply Qlt_bool_true; exact H].
    + intros [w [Hw Hlt]]. inversion Hw; subst w.
      destruct (Qlt_bool threshold v) eqn:E; [reflexivity|].
      apply Qlt_bool_false in E. exfalso. eapply Qlt_not_le; eassumption.
  - split; [discriminate|]. intros [w [Hw _]]. discriminate.
Qed.

(** C3. For a [site_id] that is not a column of the table the call raises
    the lookup error of [data[site_id]] (pandas' [KeyError], the
    UnknownSiteError of the error taxonomy) and returns nothing. *)
Theorem data_above_threshold_unknown_site (site_id : string) (data : DataFrame)
  (threshold : Q) :
  ~ In site_id (columns data) ->
  data_above_threshold site_id data threshold = Raise (KeyError site_id).
Proof.
  intros Hn. unfold data_above_threshold, getitem, column_position.
  rewrite position_None_string by exact Hn. reflexivity.
Qed.

Lemma data_above_threshold_unknown_site_witness :
  data_above_threshold "C" gap_table 0 = Raise (KeyError "C").
Proof.
  apply (data_above_threshold_unknown_site "C" gap_table 0%Q).
  simpl. intuition discriminate.
Defined.

(** C4. For a column of a wide table the call returns one flag per row, in
    row order; the flag of a row is true exactly when the row's cell for the
    site is present and strictly greater than the threshold, so an absent
    cell gives false. *)
Theorem data_above_threshold_flags (site_id : string) (data : DataFrame)
  (threshold : Q) :
  wide_table data -> In site_id (columns data) ->
  exists flags,
    data_above_threshold site_id data threshold = Ok flags
    /\ length flags = length (index data)
    /\ forall i, (i < length (index data))%nat ->
         exists x b,
           cell_at data i site_id = Some x
           /\ nth_error flags i = Some b
           /\ (b = true <-> exists v, x = Some v /\ (threshold < v)%Q).
Proof.
  intros Hw Hc.
  destruct (position_In_string site_id (columns data) Hc) as [j [Hj Hlt]].
  pose proof (wide_table_rows data Hw) as Hrows.
  pose proof (wide_table_cells data Hw) as Hcells.
  unfold data_above_threshold, getitem, column_position. rewrite Hj. simpl.
  rewrite map_snd_combine by (rewrite length_map; symmetry; exact Hrows).
  eexists. split; [reflexivity|]. split.
  - rewrite !length_map. exact Hrows.
  - intros i Hi.
    assert (Hrow : exists row, nth_error (values data) i = Some row).
    { destruct (nth_error (values data) i) as [row|] eqn:E; [eauto|].
      apply nth_error_None in E. lia. }
    destruct Hrow as [row Hrow].
    assert (Hlen : length row = length (columns data)).
    { rewrite Forall_forall in Hcells. apply Hcells.
      eapply nth_error_In. exact Hrow. }
    assert (Hx : nth_error row j = Some (at_column j row)).
    { unfold at_column. apply nth_error_nth'. lia. }
    exists (at_column j row), (gt (at_column j row) threshold).
    split; [|split].
    + unfold cell_at, column_position. rewrite Hrow, Hj. exact Hx.
    + apply (map_nth_error (fun x => gt x threshold)).
      apply (map_nth_error (at_column j)). exact Hrow.
    + apply gt_true.
Qed.

Lemma data_above_threshold_flags_witness :
  exists flags,
    data_above_threshold "B" gap_table 1 = Ok flags
    /\ length flags = length (index gap_table)
    /\ forall i, (i < length (index gap_table))%nat ->
         exists x b,
           cell_at gap_table i "B" = Some x
           /\ nth_error flags i = Some b
           /\ (b = true <-> exists v, x = Some v /\ (1 < v)%Q).
Proof.
  apply (data_above_threshold_flags "B" gap_table 1%Q).
  - reflexivity.
  - simpl. right. left. reflexivity.
Defined.

Example data_above_threshold_gap :
  data_above_threshold "B" gap_table 1 = Ok [true; false].
Proof. vm_compute. reflexivity. Qed.

(** ** MeasurementSeries *)

(** C8. Construction stamps the series with the name.  [add_measurement]
    puts the given readings after the stored ones, in the order given and
    all of them (the entries at any timestamp are those of both parts, so a
    repeated timestamp is held twice), and leaves the series named after the
    object, whatever the name of [data]; name and units are unchanged. *)
Theorem measurement_series_append (series_ : Series) (name_ : string)
  (units_ : option string) (self : MeasurementSeries.t) (data : Series) :
  let made := MeasurementSeries.__init__ series_ name_ units_ in
  let self' := MeasurementSeries.add_measurement self data in
  (s_name (MeasurementSeries.series made) = Some (MeasurementSeries.name made)
   /\ MeasurementSeries.name made = name_
   /\ s_items (MeasurementSeries.series made) = s_items series_)
  /\ s_items (MeasurementSeries.series self')
     = s_items (MeasurementSeries.series self) ++ s_items data
  /\ (forall t : Timestamp,
        length (filter (fun e => fst e =? t) (s_items (MeasurementSeries.series self')))
        = Nat.add
            (length (filter (fun e => fst e =? t)
                       (s_items (MeasurementSeries.series self))))
            (length (filter (fun e => fst e =? t) (s_items data))))
  /\ s_name (MeasurementSeries.series self') = Some (MeasurementSeries.name self')
  /\ MeasurementSeries.name self' = MeasurementSeries.name self
  /\ MeasurementSeries.units self' = MeasurementSeries.units self.
Proof.
  simpl. rewrite app_nil_r. repeat split.
  intros t. rewrite filter_app, length_app. reflexivity.
Qed.

Example add_measurement_repeated_timestamp :
  s_items (MeasurementSeries.series
             (MeasurementSeries.add_measurement
                (MeasurementSeries.__init__
                   {| s_name := None; s_items := [(5, Some 1%Q); (3, Some 2%Q)] |}
                   "Rainfall" (Some "mm"%string))
                {| s_name := Some "other"%string; s_items := [(5, Some 7%Q)] |}))
  = [(5, Some 1%Q); (3, Some 2%Q); (5, Some 7%Q)].
Proof. reflexivity. Qed.

(** ** Dictionaries *)

Section DictFacts.
Context {V : Type}.

Lemma dict_contains_get (k : string) (d : dict V) :
  dict_contains k d = match dict_get k d with Some _ => true | None => false end.
Proof.
  unfold dict_contains, dict_keys.
  induction d as [|[k' v] d IH]; simpl.
  - reflexivity.
  - destruct (String.eqb k k'); [reflexivity | exact IH].
Qed.

Lemma dict_contains_In (k : string) (d : dict V) :
  dict_contains k d = true <-> In k (dict_keys d).
Proof.
  unfold dict_contains. rewrite existsb_exists. split.
  - intros [x [Hin He]]. apply String.eqb_eq in He. subst. exact Hin.
  - intros Hin. exists k. split; [exact Hin | apply String.eqb_refl].
Qed.

Lemma dict_get_set_same (k : string) (v : V) (d : dict V) :
  dict_get k (dict_set k v d) = Some v.
Proof.
  induction d as [|[k' v'] d IH]; simpl.
  - rewrite String.eqb_refl. reflexivity.
  - destruct (String.eqb k k') eqn:E; simpl; rewrite E; [reflexivity | exact IH].
Qed.

Lemma dict_get_set_other (k k' : string) (v : V) (d : dict V) :
  k' <> k -> dict_get k' (dict_set k v d) = dict_get k' d.
Proof.
  intros Hne. apply String.eqb_neq in Hne.
  induction d as [|[k0 v0] d IH]; simpl.
  - rewrite Hne. reflexivity.
  - destruct (String.eqb k k0) eqn:E; simpl.
    + apply String.eqb_eq in E. subst k0. rewrite Hne. reflexivity.
    + destruct (String.eqb k' k0); [reflexivity | exact IH].
Qed.

Lemma dict_keys_set (k : string) (v : V) (d : dict V) :
  dict_keys (dict_set k v d)
  = if dict_contains k d then dict_keys d else dict_keys d ++ [k].
Proof.
  unfold dict_contains, dict_keys.
  induction d as [|[k' v'] d IH]; simpl.
  - reflexivity.
  - destruct (String.eqb k k') eqn:E; simpl.
    + reflexivity.
    + rewrite IH. destruct (existsb (String.eqb k) (map fst d)); reflexivity.
Qed.
End DictFacts.

(** ** Site *)

(** *** The store *)

Lemma length_assign (st : store) (p : nat) (x : Series) :
  length (assign st p x) = length st.
Proof.
  revert p. induction st as [|y st IH]; intros [|p]; simpl; auto.
Qed.

Lemma deref_assign (st : store) (p q : nat) (x : Series) :
  deref (assign st p x) q
  = if Nat.eqb q p && Nat.ltb p (length st) then x else deref st q.
Proof.
  unfold deref. revert p q. induction st as [|y st IH]; intros p q; simpl.
  - rewrite andb_false_r. reflexivity.
  - destruct p as [|p]; destruct q as [|q]; simpl; try reflexivity.
    rewrite IH. reflexivity.
Qed.

Lemma length_rename (st : store) (p : nat) (n : string) :
  length (rename st p n) = length st.
Proof. apply length_assign. Qed.

Lemma deref_rename (st : store) (p q : nat) (n : string) :
  deref (rename st p n) q
  = if Nat.eqb q p && Nat.ltb p (length st)
    then set_name (deref st p) n else deref st q.
Proof. apply deref_assign. Qed.

Lemma deref_old (st : store) (x : Series) (q : nat) :
  (q < length st)%nat -> deref (st ++ [x]) q = deref st q.
Proof. intros H. unfold deref. apply app_nth1. exact H. Qed.

Lemma deref_new (st : store) (x : Series) : deref (st ++ [x]) (length st) = x.
Proof. unfold deref. rewrite app_nth2, Nat.sub_diag by lia. reflexivity. Qed.

Lemma items_rename (st : store) (p q : nat) (n : string) :
  s_items (deref (rename st p n) q) = s_items (deref st q).
Proof.
  rewrite deref_rename.
  destruct (Nat.eqb q p) eqn:E; simpl; [|reflexivity].
  apply Nat.eqb_eq in E. subst q.
  destruct (Nat.ltb p (length st)); reflexivity.
Qed.

(** The two methods of [MeasurementSeriesRef], seen as values, are the
    methods of [MeasurementSeries]. *)
Lemma view_init (st : store) (p : nat) (n : string) (u : option string) :
  (p < length st)%nat ->
  MeasurementSeriesRef.view (fst (MeasurementSeriesRef.__init__ st p n u))
    (snd (MeasurementSeriesRef.__init__ st p n u))
  = MeasurementSeries.__init__ (deref st p) n u.
Proof.
  intros Hp. unfold MeasurementSeriesRef.view, MeasurementSeriesRef.__init__. simpl.
  rewrite deref_rename, Nat.eqb_refl. apply Nat.ltb_lt in Hp. rewrite Hp. reflexivity.
Qed.

Lemma view_add_measurement (st : store) (m : MeasurementSeriesRef.t) (data : nat) :
  MeasurementSeriesRef.view (fst (MeasurementSeriesRef.add_measurement st m data))
    (snd (MeasurementSeriesRef.add_measurement st m data))
  = MeasurementSeries.add_measurement (MeasurementSeriesRef.view st m) (deref st data).
Proof.
  unfold MeasurementSeriesRef.view, MeasurementSeriesRef.add_measurement, alloc. simpl.
  rewrite deref_rename, Nat.eqb_refl, length_app. simpl.
  assert (H : Nat.ltb (length st) (length st + 1) = true) by (apply Nat.ltb_lt; lia).
  rewrite H, deref_new. reflexivity.
Qed.

Section SiteRefSteps.
Context {G : Type}.

Lemma ref_add_existing (st : store) (self : SiteRef.t G) (measurement_id : string)
  (data : nat) (units : option string) (m : MeasurementSeriesRef.t) :
  dict_get measurement_id (SiteRef.measurements self) = Some m ->
  SiteRef.add_measurement st self measurement_id data units
  = (rename (st ++ [concat [deref st (MeasurementSeriesRef.series m); deref st data]])
       (length st) (MeasurementSeriesRef.name m),
     {| SiteRef.name := SiteRef.name self;
        SiteRef.measurements :=
          dict_set measurement_id
            {| MeasurementSeriesRef.series := length st;
               MeasurementSeriesRef.name := MeasurementSeriesRef.name m;
               MeasurementSeriesRef.units := MeasurementSeriesRef.units m |}
            (SiteRef.measurements self);
        SiteRef.location := SiteRef.location self |}).
Proof.
  intros Hg. unfold SiteRef.add_measurement.
  rewrite dict_contains_get, Hg. reflexivity.
Qed.

Lemma ref_add_new (st : store) (self : SiteRef.t G) (measurement_id : string)
  (data : nat) (units : option string) :
  dict_get measurement_id (SiteRef.measurements self) = None ->
  SiteRef.add_measurement st self measurement_id data units
  = (rename st data measurement_id,
     {| SiteRef.name := SiteRef.name self;
        SiteRef.measurements :=
          dict_set measurement_id
            {| MeasurementSeriesRef.series := data;
               MeasurementSeriesRef.name := measurement_id;
               MeasurementSeriesRef.units := units |}
            (SiteRef.measurements self);
        SiteRef.location := SiteRef.location self |}).
Proof.
  intros Hg. unfold SiteRef.add_measurement.
  rewrite dict_contains_get, Hg. reflexivity.
Qed.
End SiteRefSteps.

(** C9. [Site.add_measurement], with the Series held by reference.  The
    call leaves every other entry as it is and changes the readings of no
    object.  When a series is registered under [measurement_id] the call is
    that series' own [add_measurement]: the entry keeps its name and the
    units it had (the [units] argument plays no part) and now holds a new
    object, named after it, with the old readings followed by those of
    [data]; no other object is touched and the keys are as before.
    Otherwise the call is the constructor: the entry registered, last, under
    [measurement_id] has that name, the [units] given and [data] itself as
    its series, and [data] is renamed to [measurement_id]; no other object
    is touched. *)
Theorem site_add_measurement (G : Type) (st : store) (self : SiteRef.t G)
  (measurement_id : string) (data : nat) (units : option string) :
  (data < length st)%nat ->
  let st' := fst (SiteRef.add_measurement st self measurement_id data units) in
  let self' := snd (SiteRef.add_measurement st self measurement_id data units) in
  SiteRef.name self' = SiteRef.name self
  /\ SiteRef.location self' = SiteRef.location self
  /\ (forall k, k <> measurement_id ->
        dict_get k (SiteRef.measurements self') = dict_get k (SiteRef.measurements self))
  /\ (forall q, (q < length st)%nat -> s_items (deref st' q) = s_items (deref st q))
  /\ match dict_get measurement_id (SiteRef.measurements self) with
     | Some m =>
         (st', {| MeasurementSeriesRef.series := length st;
                  MeasurementSeriesRef.name := MeasurementSeriesRef.name m;
                  MeasurementSeriesRef.units := MeasurementSeriesRef.units m |})
         = MeasurementSeriesRef.add_measurement st m data
         /\ dict_get measurement_id (SiteRef.measurements self')
            = Some {| MeasurementSeriesRef.series := length st;
                      MeasurementSeriesRef.name := MeasurementSeriesRef.name m;
                      MeasurementSeriesRef.units := MeasurementSeriesRef.units m |}
         /\ deref st' (length st)
            = {| s_name := Some (MeasurementSeriesRef.name m);
                 s_items := s_items (deref st (MeasurementSeriesRef.series m))
                            ++ s_items (deref st data) |}
         /\ (forall q, (q < length st)%nat -> deref st' q = deref st q)
         /\ dict_keys (SiteRef.measurements self')
            = dict_keys (SiteRef.measurements self)
     | None =>
         (st', {| MeasurementSeriesRef.series := data;
                  MeasurementSeriesRef.name := measurement_id;
                  MeasurementSeriesRef.units := units |})
         = MeasurementSeriesRef.__init__ st data measurement_id units
         /\ dict_get measurement_id (SiteRef.measurements self')
            = Some {| MeasurementSeriesRef.series := data;
                      MeasurementSeriesRef.name := measurement_id;
                      MeasurementSeriesRef.units := units |}
         /\ deref st' data
            = {| s_name := Some measurement_id; s_items := s_items (deref st data) |}
         /\ (forall q, q <> data -> deref st' q = deref st q)
         /\ dict_keys (SiteRef.measurements self')
            = dict_keys (SiteRef.measurements self) ++ [measurement_id]
     end.
Proof.
  intros Hdata.
  destruct (dict_get measurement_id (SiteRef.measurements self)) as [m|] eqn:Hg.
  - rewrite (ref_add_existing st self measurement_id data units m Hg). simpl.
    assert (Hold : forall q, (q < length st)%nat ->
              deref (rename (st ++ [concat [deref st (MeasurementSeriesRef.series m);
                                            deref st data]])
                       (length st) (MeasurementSeriesRef.name m)) q
              = deref st q).
    { intros q Hq. rewrite deref_rename.
      assert (E : Nat.eqb q (length st) = false) by (apply Nat.eqb_neq; lia).
      rewrite E. simpl. apply deref_old. exact Hq. }
    split; [reflexivity|]. split; [reflexivity|].
    split; [intros k Hk; apply dict_get_set_other; exact Hk|].
    split; [intros q Hq; rewrite Hold by exact Hq; reflexivity|].
    split; [reflexivity|].
    split; [apply dict_get_set_same|].
    split; [|split; [exact Hold|]].
    + rewrite deref_rename, Nat.eqb_refl, length_app. simpl.
      assert (H : Nat.ltb (length st) (length st + 1) = true)
        by (apply Nat.ltb_lt; lia).
      rewrite H, deref_new. unfold set_name, concat. simpl.
      rewrite app_nil_r. reflexivity.
    + rewrite dict_keys_set, dict_contains_get, Hg. reflexivity.
  - rewrite (ref_add_new st self measurement_id data units Hg). simpl.
    split; [reflexivity|]. split; [reflexivity|].
    split; [intros k Hk; apply dict_get_set_other; exact Hk|].
    split; [intros q _; apply items_rename|].
    split; [reflexivity|].
    split; [apply dict_get_set_same|].
    split; [|split].
    + rewrite deref_rename, Nat.eqb_refl.
      apply Nat.ltb_lt in Hdata. rewrite Hdata. reflexivity.
    + intros q Hq. rewrite deref_rename.
      assert (E : Nat.eqb q data = false) by (apply Nat.eqb_neq; exact Hq).
      rewrite E. reflexivity.
    + rewrite dict_keys_set, dict_contains_get, Hg. reflexivity.
Qed.

Lemma site_add_measurement_witness :
  dict_get "Rainfall"
    (SiteRef.measurements
       (snd (SiteRef.add_measurement store_R (site_R1 rainfall_R) "Rainfall" 1
               (Some "inch"%string))))
  = Some {| MeasurementSeriesRef.series := 2; MeasurementSeriesRef.name := "Rainfall";
            MeasurementSeriesRef.units := Some "mm"%string |}
  /\ deref (fst (SiteRef.add_measurement store_R (site_R1 rainfall_R) "Rainfall" 1
                   (Some "inch"%string))) 2
     = {| s_name := Some "Rainfall"%string;
          s_items := [(1, Some 1%Q); (2, Some 5%Q)] |}.
Proof.
  assert (Hd : (1 < length store_R)%nat) by (simpl; lia).
  pose proof (site_add_measurement shape store_R (site_R1 rainfall_R) "Rainfall" 1
                (Some "inch"%string) Hd) as H.
  cbv zeta in H. destruct H as [_ [_ [_ [_ H]]]]. simpl in H.
  destruct H as [_ [H1 [H2 _]]]. split; [exact H1 | exact H2].
Defined.

Example site_units_first_call_win :
  let s0 := site_S1 Empty in
  let s1 := Site.add_measurement s0 "Rainfall"
              {| s_name := None; s_items := [(1, Some 1%Q)] |} (Some "mm"%string) in
  let s2 := Site.add_measurement s1 "Rainfall"
              {| s_name := None; s_items := [(2, Some 2%Q)] |} (Some "inch"%string) in
  option_map MeasurementSeries.units (dict_get "Rainfall" (Site.measurements s2))
  = Some (Some "mm"%string)
  /\ option_map (fun m => s_items (MeasurementSeries.series m))
       (dict_get "Rainfall" (Site.measurements s2))
     = Some [(1, Some 1%Q); (2, Some 2%Q)].
Proof. split; reflexivity. Qed.

(** ** Catchment *)

Section CatchmentFacts.
Context {G : Type}.
Variable size : G -> nat.

Lemma already_added_contains (d : dict (Site.t G)) (new_name : string) :
  Catchment.already_added (dict_keys d) new_name = dict_contains new_name d.
Proof.
  unfold dict_contains.
  induction (dict_keys d) as [|k ks IH]; simpl.
  - reflexivity.
  - rewrite String.eqb_sym. destruct (String.eqb new_name k); [reflexivity | exact IH].
Qed.

(** With an undefined area or location the condition is false before
    [sjoin] is ever looked up. *)
Lemma outside_skipped (globals : Globals G) (self : Catchment.t G)
  (new_site : Site.t G) :
  size (Catchment.area self) = O \/ size (Site.location new_site) = O ->
  Catchment.outside size globals self new_site = Ok false.
Proof.
  unfold Catchment.outside. intros [H | H]; rewrite H; simpl.
  - reflexivity.
  - destruct (Nat.eqb (size (Catchment.area self)) 0); reflexivity.
Qed.

(** With [sjoin] bound and both geometries defined the condition is the
    emptiness of the join. *)
Lemma outside_checked (globals : Globals G) (f : G -> G -> G)
  (self : Catchment.t G) (new_site : Site.t G) :
  sjoin globals = Some f ->
  size (Catchment.area self) <> O -> size (Site.location new_site) <> O ->
  Catchment.outside size globals self new_site
  = Ok (Nat.eqb (size (f (Site.location new_site) (Catchment.area self))) 0).
Proof.
  unfold Catchment.outside. intros Hf Ha Hl.
  apply Nat.eqb_neq in Ha. apply Nat.eqb_neq in Hl.
  rewrite Ha, Hl, Hf. reflexivity.
Qed.

Lemma add_site_refused_outside (globals : Globals G) (self : Catchment.t G)
  (new_site : Site.t G) :
  Catchment.outside size globals self new_site = Ok true ->
  Catchment.add_site size globals self new_site
  = Ok (self, [Catchment.not_within_message self new_site]).
Proof. unfold Catchment.add_site. intros H. rewrite H. reflexivity. Qed.

Lemma add_site_registers (globals : Globals G) (self : Catchment.t G)
  (new_site : Site.t G) :
  Catchment.outside size globals self new_site = Ok false ->
  dict_contains (Site.name new_site) (Catchment.sites self) = false ->
  Catchment.add_site size globals self new_site
  = Ok ({| Catchment.name := Catchment.name self;
           Catchment.sites := dict_set (Site.name new_site) new_site
                                (Catchment.sites self);
           Catchment.area := Catchment.area self |}, []).
Proof.
  unfold Catchment.add_site. intros H Hc. rewrite H. simpl.
  rewrite already_added_contains, Hc. reflexivity.
Qed.
End CatchmentFacts.

(** C5, on the module as written.  With both geometries defined the
    condition of [add_site] reaches the unbound name [sjoin]: the call
    raises [NameError] where a site outside the area was to be refused. *)
Theorem add_site_defined_geometries_raise (G : Type) (size : G -> nat)
  (self : Catchment.t G) (new_site : Site.t G) :
  size (Catchment.area self) <> O -> size (Site.location new_site) <> O ->
  Catchment.add_site size models_py self new_site = Raise (NameError "sjoin").
Proof.
  intros Ha Hl. unfold Catchment.add_site, Catchment.outside.
  apply Nat.eqb_neq in Ha. apply Nat.eqb_neq in Hl.
  rewrite Ha, Hl. reflexivity.
Qed.

Lemma add_site_defined_geometries_raise_witness :
  Catchment.add_site shape_size models_py
    (catchment_C1 [] (Box 0 0 10 10)) (site_S1 (PointAt 20 20))
  = Raise (NameError "sjoin").
Proof.
  apply (add_site_defined_geometries_raise shape shape_size
           (catchment_C1 [] (Box 0 0 10 10)) (site_S1 (PointAt 20 20)));
    simpl; discriminate.
Defined.

(** With the two names imported the same call refuses the site, and a
    catchment without area accepts it. *)
Example add_site_outside_with_geopandas :
  Catchment.add_site shape_size with_geopandas
    (catchment_C1 [] (Box 0 0 10 10)) (site_S1 (PointAt 20 20))
  = Ok (catchment_C1 [] (Box 0 0 10 10), ["S1 not within C1 catchment"%string]).
Proof. vm_compute. reflexivity. Qed.

Example add_site_inside_with_geopandas :
  Catchment.add_site shape_size with_geopandas
    (catchment_C1 [] (Box 0 0 10 10)) (site_S1 (PointAt 5 5))
  = Ok (catchment_C1 [("S1"%string, site_S1 (PointAt 5 5))] (Box 0 0 10 10), []).
Proof. vm_compute. reflexivity. Qed.

Example add_site_no_area :
  Catchment.add_site shape_size models_py
    (catchment_C1 [] Empty) (site_S1 (PointAt 20 20))
  = Ok (catchment_C1 [("S1"%string, site_S1 (PointAt 20 20))] Empty, []).
Proof. vm_compute. reflexivity. Qed.

(** C6. When the first condition of [add_site] is false (the spatial check
    was skipped or passed) the call returns; if the candidate's name is
    already a key it prints the duplicate report and leaves the catchment as
    it was; and in either case a second call with the same candidate prints
    the duplicate report, changes nothing, and the name has exactly one
    entry. *)
Theorem add_site_duplicate_name (G : Type) (size : G -> nat) (globals : Globals G)
  (self : Catchment.t G) (new_site : Site.t G) :
  NoDup (dict_keys (Catchment.sites self)) ->
  Catchment.outside size globals self new_site = Ok false ->
  exists self1 out1,
    Catchment.add_site size globals self new_site = Ok (self1, out1)
    /\ (dict_contains (Site.name new_site) (Catchment.sites self) = true ->
        self1 = self /\ out1 = [Catchment.already_added_message new_site])
    /\ Catchment.add_site size globals self1 new_site
       = Ok (self1, [Catchment.already_added_message new_site])
    /\ count_occ string_dec (dict_keys (Catchment.sites self1)) (Site.name new_site)
       = 1%nat.
Proof.
  intros Hnd Hout.
  destruct (dict_contains (Site.name new_site) (Catchment.sites self)) eqn:Hc.
  - assert (Hcall : Catchment.add_site size globals self new_site
                    = Ok (self, [Catchment.already_added_message new_site])).
    { unfold Catchment.add_site. rewrite Hout. simpl.
      rewrite already_added_contains, Hc. reflexivity. }
    exists self, [Catchment.already_added_message new_site].
    repeat split; try exact Hcall.
    apply NoDup_count_occ'; [exact Hnd | apply dict_contains_In; exact Hc].
  - eexists. eexists. split; [apply add_site_registers; assumption|].
    split; [discriminate|]. split.
    + unfold Catchment.add_site.
      change (Catchment.outside size globals _ new_site)
        with (Catchment.outside size globals self new_site).
      rewrite Hout. simpl.
      rewrite already_added_contains, dict_contains_get, dict_get_set_same.
      reflexivity.
    + simpl. rewrite dict_keys_set, Hc, count_occ_app. simpl.
      destruct (string_dec (Site.name new_site) (Site.name new_site)) as [_|Hne];
        [|contradiction].
      rewrite (proj1 (count_occ_not_In string_dec _ _)); [reflexivity|].
      intro Hin. apply dict_contains_In in Hin. congruence.
Qed.

Lemma add_site_duplicate_name_witness :
  exists self1 out1,
    Catchment.add_site shape_size models_py
      (catchment_C1 [("S1"%string, site_S1 Empty)] Empty) (site_S1 Empty)
    = Ok (self1, out1)
    /\ (dict_contains (Site.name (site_S1 Empty))
          (Catchment.sites (catchment_C1 [("S1"%string, site_S1 Empty)] Empty)) = true ->
        self1 = catchment_C1 [("S1"%string, site_S1 Empty)] Empty
        /\ out1 = [Catchment.already_added_message (site_S1 Empty)])
    /\ Catchment.add_site shape_size models_py self1 (site_S1 Empty)
       = Ok (self1, [Catchment.already_added_message (site_S1 Empty)])
    /\ count_occ string_dec (dict_keys (Catchment.sites self1))
         (Site.name (site_S1 Empty)) = 1%nat.
Proof.
  apply (add_site_duplicate_name shape shape_size models_py
           (catchment_C1 [("S1"%string, site_S1 Empty)] Empty) (site_S1 Empty)).
  - simpl. repeat constructor. simpl. tauto.
  - reflexivity.
Defined.

Example add_site_twice :
  Catchment.add_site shape_size models_py (catchment_C1 [] Empty) (site_S1 Empty)
  = Ok (catchment_C1 [("S1"%string, site_S1 Empty)] Empty, [])
  /\ Catchment.add_site shape_size models_py
       (catchment_C1 [("S1"%string, site_S1 Empty)] Empty) (site_S1 Empty)
     = Ok (catchment_C1 [("S1"%string, site_S1 Empty)] Empty,
           ["S1 has already been added to site list"%string]).
Proof. split; vm_compute; reflexivity. Qed.

(** ** The constructors on the module as written *)

(** C10. [models.py] imports pandas only.  Both branches of
    [Site.__init__] and of [Catchment.__init__] look up the unbound name
    [gpd], so every constructor call raises [NameError] and none returns an
    object; [sjoin], which [add_site] calls, is unbound as well. *)
Theorem constructors_raise_NameError (G : Type) :
  (forall name_ longitude latitude,
     Site.__init__ (@models_py G) name_ longitude latitude = Raise (NameError "gpd"))
  /\ (forall name_ shapefile,
        Catchment.__init__ (@models_py G) name_ shapefile = Raise (NameError "gpd"))
  /\ (forall name_ longitude latitude s,
        Site.__init__ (@models_py G) name_ longitude latitude <> Ok s)
  /\ (forall name_ shapefile c,
        Catchment.__init__ (@models_py G) name_ shapefile <> Ok c)
  /\ global "sjoin" (sjoin (@models_py G)) = Raise (NameError "sjoin").
Proof.
  assert (Hs : forall name_ longitude latitude,
             Site.__init__ (@models_py G) name_ longitude latitude
             = Raise (NameError "gpd")).
  { intros. unfold Site.__init__.
    destruct (truthy longitude && truthy latitude); reflexivity. }
  assert (Hc : forall name_ shapefile,
             Catchment.__init__ (@models_py G) name_ shapefile
             = Raise (NameError "gpd")).
  { intros. unfold Catchment.__init__.
    destruct (truthy_str shapefile); reflexivity. }
  split; [exact Hs|]. split; [exact Hc|].
  split; [|split].
  - intros name_ longitude latitude s. rewrite Hs. discriminate.
  - intros name_ shapefile c. rewrite Hc. discriminate.
  - reflexivity.
Qed.

Example site_init_with_geopandas :
  Site.__init__ with_geopandas "S1" (Some 5%Q) (Some 5%Q) = Ok (site_S1 (PointAt 5 5))
  /\ Site.__init__ with_geopandas "S1" (Some 0%Q) (Some 5%Q) = Ok (site_S1 Empty)
  /\ Site.__init__ with_geopandas "S1" None None = Ok (site_S1 Empty).
Proof. repeat split. Qed.

(** * Further properties of the daily statistics *)

Lemma of_nat_zero (n : nat) : of_nat n = 0%Q -> n = O.
Proof.
  unfold of_nat, inject_Z. intros H. inversion H as [Hz].
  destruct n; [reflexivity | discriminate].
Qed.

(** What the mean kernel returns on a list of values. *)
Lemma mean_value (vals : list Q) :
  finish mean_kernel (fold_left (step mean_kernel) vals (init mean_kernel))
  = match vals with
    | [] => None
    | _ => Some (fold_left Qplus vals 0 / of_nat (length vals))%Q
    end.
Proof.
  change (init mean_kernel) with (O, 0%Q). rewrite mean_run.
  destruct vals; reflexivity.
Qed.

Lemma count_value (vals : list Q) :
  finish count_kernel (fold_left (step count_kernel) vals (init count_kernel))
  = Some (of_nat (length vals)).
Proof. change (init count_kernel) with O. rewrite count_run. reflexivity. Qed.

Lemma max_value (vals : list Q) :
  match vals with
  | [] => finish max_kernel
            (fold_left (step max_kernel) vals (init max_kernel)) = None
  | _ => exists m,
           finish max_kernel (fold_left (step max_kernel) vals (init max_kernel))
           = Some m
           /\ In m vals /\ Forall (fun v => (v <= m)%Q) vals
  end.
Proof. exact (kernel_reduces Max vals). Qed.

Lemma min_value (vals : list Q) :
  match vals with
  | [] => finish min_kernel
            (fold_left (step min_kernel) vals (init min_kernel)) = None
  | _ => exists m,
           finish min_kernel (fold_left (step min_kernel) vals (init min_kernel))
           = Some m
           /\ In m vals /\ Forall (fun v => (m <= v)%Q) vals
  end.
Proof. exact (kernel_reduces Min vals). Qed.

(** X3. On a date and column of the input, the daily mean, maximum and minimum
    are absent together, and exactly when the daily count is 0. *)
Theorem daily_absent_together (data : DataFrame) (d : Date) (c : string) :
  wide_table data -> In d (index_date data) -> In c (columns data) ->
  (loc (daily_count data) d c = Some (Some 0%Q)
   <-> loc (daily_mean data) d c = Some None)
  /\ (loc (daily_count data) d c = Some (Some 0%Q)
      <-> loc (daily_max data) d c = Some None)
  /\ (loc (daily_count data) d c = Some (Some 0%Q)
      <-> loc (daily_min data) d c = Some None).
Proof.
  intros Hw Hd Hc.
  change (daily_mean data) with (aggregated mean_kernel data).
  change (daily_max data) with (aggregated max_kernel data).
  change (daily_min data) with (aggregated min_kernel data).
  change (daily_count data) with (aggregated count_kernel data).
  rewrite !agg_loc by assumption.
  rewrite mean_value, count_value.
  pose proof (max_value (partition_values data d c)) as Hmax.
  pose proof (min_value (partition_values data d c)) as Hmin.
  destruct (partition_values data d c) as [|v vals] eqn:Hv.
  - rewrite Hmax, Hmin. repeat split; reflexivity.
  - destruct Hmax as [hi [Hhi _]]. destruct Hmin as [lo [Hlo _]].
    rewrite Hhi, Hlo.
    assert (Hno : Some (Some (of_nat (length (v :: vals)))) <> Some (Some 0%Q)).
    { intro H. assert (H0 : of_nat (length (v :: vals)) = 0%Q) by congruence.
      apply of_nat_zero in H0. discriminate. }
    repeat split; intro H; try discriminate; exfalso; apply Hno; exact H.
Qed.

Lemma daily_absent_together_witness :
  (loc (daily_count gap_table) (d2000_01_01 + 1) "B" = Some (Some 0%Q)
   <-> loc (daily_mean gap_table) (d2000_01_01 + 1) "B" = Some None)
  /\ (loc (daily_count gap_table) (d2000_01_01 + 1) "B" = Some (Some 0%Q)
      <-> loc (daily_max gap_table) (d2000_01_01 + 1) "B" = Some None)
  /\ (loc (daily_count gap_table) (d2000_01_01 + 1) "B" = Some (Some 0%Q)
      <-> loc (daily_min gap_table) (d2000_01_01 + 1) "B" = Some None).
Proof.
  apply (daily_absent_together gap_table (d2000_01_01 + 1) "B").
  - reflexivity.
  - vm_compute. right. left. reflexivity.
  - right. left. reflexivity.
Defined.

Section GroupShape.
Variable K : Kernel.
Variable n : nat.

Lemma upsert_lengths (d : Z) (row : list cell) (groups : list (Z * list (acc K))) :
  length row = n ->
  Forall (fun g => length (snd g) = n) groups ->
  Forall (fun g => length (snd g) = n) (upsert K n d row groups).
Proof.
  intros Hrow. induction 1 as [|[d' accs] rest Hg Hall IH]; simpl.
  - constructor; [|constructor]. simpl.
    rewrite accumulate_row_length; [exact Hrow|].
    unfold fresh. rewrite repeat_length. congruence.
  - destruct (d <? d').
    + constructor; [|constructor; assumption]. simpl.
      rewrite accumulate_row_length; [exact Hrow|].
      unfold fresh. rewrite repeat_length. congruence.
    + destruct (d =? d').
      * constructor; [|assumption]. simpl in *.
        rewrite accumulate_row_length; congruence.
      * constructor; assumption.
Qed.

Lemma accumulate_lengths (entries : list (Z * list cell)) :
  Forall (fun e => length (snd e) = n) entries ->
  Forall (fun g => length (snd g) = n) (accumulate K n entries).
Proof.
  induction entries as [|e entries IH] using rev_ind; intros H.
  - constructor.
  - rewrite accumulate_snoc. apply Forall_app in H. destruct H as [H1 H2].
    apply Forall_inv in H2.
    apply upsert_lengths; [exact H2 | apply IH; exact H1].
Qed.
End GroupShape.

Lemma wide_table_columns (data : DataFrame) :
  wide_table data -> nodupb (columns data) = true.
Proof.
  unfold wide_table, wide_tableb. intros H.
  apply andb_prop in H. destruct H as [_ H]. exact H.
Qed.

(** X4. The frame a daily function returns on a wide table is again a wide
    table: one row of cells per date, one cell per column in every row, the
    column labels of the input. *)
Theorem daily_wide_table (r : Reducer) (data : DataFrame) :
  wide_table data -> wide_table (daily r data).
Proof.
  intros Hw. rewrite daily_agg. unfold wide_table, wide_tableb.
  rewrite agg_shape, Nat.eqb_refl. simpl andb.
  change (columns (aggregated (kernel_of r) data)) with (columns data).
  rewrite (wide_table_columns data Hw), andb_true_r.
  apply forallb_forall. intros row Hin. apply Nat.eqb_eq.
  apply in_map_iff in Hin.
  destruct Hin as [g [Hg Hin]]. subst row. rewrite length_map.
  assert (Hall : Forall (fun g => length (snd g) = length (columns data))
                   (accumulate (kernel_of r) (length (columns data))
                      (combine (index_date data) (values data)))).
  { apply accumulate_lengths. apply Forall_forall. intros [t row] He. simpl.
    pose proof (wide_table_cells data Hw) as Hc. rewrite Forall_forall in Hc.
    apply Hc. eapply in_combine_r. exact He. }
  rewrite Forall_forall in Hall. apply Hall. exact Hin.
Qed.

Lemma daily_wide_table_witness : wide_table (daily Total gap_table).
Proof. apply (daily_wide_table Total gap_table). reflexivity. Defined.

(** * Further properties of the threshold test *)

Lemma gt_monotone (x : cell) (t1 t2 : Q) :
  (t1 <= t2)%Q -> gt x t2 = true -> gt x t1 = true.
Proof.
  intros Hle H. apply gt_true in H. destruct H as [v [Hx Hlt]].
  apply gt_true. exists v. split; [exact Hx|].
  eapply Qle_lt_trans; eassumption.
Qed.

(** X5. Raising the threshold never turns a flag on: when the call returns for
    the higher threshold it returns for the lower one, with as many flags,
    and every row flagged at the higher threshold is flagged at the lower. *)
Theorem data_above_threshold_monotone (site_id : string) (data : DataFrame)
  (t1 t2 : Q) (flags2 : list bool) :
  (t1 <= t2)%Q ->
  data_above_threshold site_id data t2 = Ok flags2 ->
  exists flags1,
    data_above_threshold site_id data t1 = Ok flags1
    /\ length flags1 = length flags2
    /\ forall i, nth_error flags2 i = Some true -> nth_error flags1 i = Some true.
Proof.
  intros Hle. unfold data_above_threshold.
  destruct (getitem data site_id) as [column|e]; simpl; [|discriminate].
  intros H. injection H as H. subst flags2.
  eexists. split; [reflexivity|]. split.
  - rewrite !length_map. reflexivity.
  - intros i Hi. rewrite nth_error_map in Hi |- *.
    destruct (nth_error (map snd (s_items column)) i) as [x|]; [|discriminate].
    simpl in *. injection Hi as Hi. f_equal.
    eapply gt_monotone; eassumption.
Qed.

Lemma data_above_threshold_monotone_witness :
  exists flags1,
    data_above_threshold "A" gap_table 0 = Ok flags1
    /\ length flags1 = length [false; true]
    /\ forall i, nth_error [false; true] i = Some true ->
                 nth_error flags1 i = Some true.
Proof.
  apply (data_above_threshold_monotone "A" gap_table 0%Q 2%Q [false; true]).
  - unfold Qle. simpl. lia.
  - vm_compute. reflexivity.
Defined.

Lemma present_In (v : Q) (cells : list cell) :
  In (Some v) cells -> In v (present cells).
Proof.
  induction cells as [|[w|] cells IH]; simpl; intros H.
  - contradiction.
  - destruct H as [H | H]; [injection H as H; left; exact H | right; auto].
  - destruct H as [H | H]; [discriminate | auto].
Qed.

Lemma nth_error_combine {A B} (l : list A) (l' : list B) (i : nat) (a : A) (b : B) :
  nth_error l i = Some a -> nth_error l' i = Some b ->
  In (a, b) (combine l l').
Proof.
  revert l' i. induction l as [|x l IH]; intros [|y l'] [|i] Ha Hb;
    simpl in *; try discriminate.
  - injection Ha as Ha. injection Hb as Hb. subst. left. reflexivity.
  - right. eapply IH; eassumption.
Qed.

(** X6. A flagged reading shows in the daily maximum: when the flag of row [i]
    is on, the daily maximum of the site on that row's date is present and
    strictly above the threshold. *)
Theorem flagged_row_daily_max_above (site_id : string) (data : DataFrame)
  (threshold : Q) (flags : list bool) (i : nat) (t : Timestamp) :
  wide_table data ->
  data_above_threshold site_id data threshold = Ok flags ->
  nth_error flags i = Some true ->
  nth_error (index data) i = Some t ->
  exists m, loc (daily_max data) (date t) site_id = Some (Some m)
            /\ (threshold < m)%Q.
Proof.
  intros Hw Hcall Hflag Ht.
  pose proof (wide_table_rows data Hw) as Hrows.
  unfold data_above_threshold, getitem in Hcall.
  destruct (column_position site_id data) as [j|] eqn:Hj; [|discriminate].
  simpl in Hcall. injection Hcall as Hcall. subst flags.
  rewrite map_snd_combine in Hflag by (rewrite length_map; symmetry; exact Hrows).
  rewrite !nth_error_map in Hflag.
  destruct (nth_error (values data) i) as [row|] eqn:Hrow; [|discriminate].
  simpl in Hflag. injection Hflag as Hflag.
  apply gt_true in Hflag. destruct Hflag as [v [Hv Hlt]].
  assert (Hc : In site_id (columns data)).
  { eapply position_In; [|exact Hj]. intros a b. apply String.eqb_eq. }
  assert (Hd : In (date t) (index_date data)).
  { unfold index_date. apply in_map. eapply nth_error_In. exact Ht. }
  assert (Hin : In v (partition_values data (date t) site_id)).
  { unfold partition_values. rewrite Hj. apply present_In. rewrite <- Hv.
    apply in_map. unfold rows_on.
    apply (in_map snd _ (t, row)). apply filter_In. split.
    - eapply nth_error_combine; eassumption.
    - simpl. apply Z.eqb_refl. }
  change (daily_max data) with (aggregated max_kernel data).
  rewrite agg_loc by assumption.
  pose proof (max_value (partition_values data (date t) site_id)) as Hmax.
  destruct (partition_values data (date t) site_id) as [|w vals]; [contradiction|].
  destruct Hmax as [m [Hm [_ Hup]]]. exists m. split; [rewrite Hm; reflexivity|].
  rewrite Forall_forall in Hup. eapply Qlt_le_trans; [exact Hlt | apply Hup, Hin].
Qed.

Lemma flagged_row_daily_max_above_witness :
  exists m, loc (daily_max gap_table) (date (at_time d2000_01_01 9 0)) "B"
            = Some (Some m)
            /\ (1 < m)%Q.
Proof.
  apply (flagged_row_daily_max_above "B" gap_table 1%Q [true; false] O
           (at_time d2000_01_01 9 0)).
  - reflexivity.
  - vm_compute. reflexivity.
  - reflexivity.
  - reflexivity.
Defined.

(** * Further properties of MeasurementSeries and Site *)

Lemma add_measurement_fold (m : MeasurementSeries.t) (batches : list Series) :
  let m' := fold_left MeasurementSeries.add_measurement batches m in
  s_items (MeasurementSeries.series m')
  = s_items (MeasurementSeries.series m) ++ flat_map s_items batches
  /\ MeasurementSeries.name m' = MeasurementSeries.name m
  /\ MeasurementSeries.units m' = MeasurementSeries.units m
  /\ (s_name (MeasurementSeries.series m) = Some (MeasurementSeries.name m) ->
      s_name (MeasurementSeries.series m') = Some (MeasurementSeries.name m)).
Proof.
  revert m. induction batches as [|b batches IH]; intros m; simpl.
  - rewrite app_nil_r. auto.
  - destruct (IH (MeasurementSeries.add_measurement m b)) as [Hi [Hn [Hu Hs]]].
    simpl in Hi, Hn, Hu, Hs. rewrite Hi, Hn, Hu.
    rewrite app_nil_r, <- app_assoc. repeat split. intros _. apply Hs. reflexivity.
Qed.

(** X7. A series built by the constructor and fed any number of batches holds
    the first readings followed by the batches in call order, is still named
    after the object, keeps its units and prints as before the appends. *)
Theorem measurement_series_batches (series_ : Series) (name_ : string)
  (units_ : option string) (batches : list Series) :
  let m := fold_left MeasurementSeries.add_measurement batches
             (MeasurementSeries.__init__ series_ name_ units_) in
  s_items (MeasurementSeries.series m) = s_items series_ ++ flat_map s_items batches
  /\ s_name (MeasurementSeries.series m) = Some name_
  /\ MeasurementSeries.name m = name_
  /\ MeasurementSeries.units m = units_
  /\ MeasurementSeries.__str__ m
     = MeasurementSeries.__str__ (MeasurementSeries.__init__ series_ name_ units_).
Proof.
  destruct (add_measurement_fold
              (MeasurementSeries.__init__ series_ name_ units_) batches)
    as [Hi [Hn [Hu Hs]]].
  simpl in *. repeat split; auto.
  unfold MeasurementSeries.__str__. rewrite Hn, Hu. reflexivity.
Qed.

(** X8. Units that are [None] or the empty string are left out of the printed
    form; any other units follow the name in brackets. *)
Theorem measurement_series_str (m : MeasurementSeries.t) :
  match MeasurementSeries.units m with
  | None | Some EmptyString =>
      MeasurementSeries.__str__ m = MeasurementSeries.name m
  | Some u =>
      MeasurementSeries.__str__ m
      = (MeasurementSeries.name m ++ " (" ++ u ++ ")")%string
      /\ MeasurementSeries.__str__ m <> MeasurementSeries.name m
  end.
Proof.
  unfold MeasurementSeries.__str__.
  destruct (MeasurementSeries.units m) as [[|a u]|]; simpl; try reflexivity.
  split; [reflexivity|].
  generalize (MeasurementSeries.name m). intros n H.
  induction n as [|b n IH]; simpl in H.
  - discriminate.
  - injection H as H. apply IH. exact H.
Qed.

Section SiteFacts.
Context {G : Type}.

Lemma site_add_lookup (self : Site.t G) (measurement_id : string) (data : Series)
  (units : option string) (k : string) :
  dict_get k (Site.measurements (Site.add_measurement self measurement_id data units))
  = if String.eqb k measurement_id
    then Some (merged self measurement_id data units)
    else dict_get k (Site.measurements self).
Proof.
  unfold Site.add_measurement, merged.
  rewrite dict_contains_get.
  destruct (dict_get measurement_id (Site.measurements self)) as [m|] eqn:Hg;
    simpl; destruct (String.eqb k measurement_id) eqn:E.
  - apply String.eqb_eq in E. subst k. apply dict_get_set_same.
  - apply dict_get_set_other. apply String.eqb_neq. exact E.
  - apply String.eqb_eq in E. subst k. apply dict_get_set_same.
  - apply dict_get_set_other. apply String.eqb_neq. exact E.
Qed.

Lemma site_add_keys (self : Site.t G) (measurement_id : string) (data : Series)
  (units : option string) :
  dict_keys (Site.measurements (Site.add_measurement self measurement_id data units))
  = if dict_contains measurement_id (Site.measurements self)
    then dict_keys (Site.measurements self)
    else dict_keys (Site.measurements self) ++ [measurement_id].
Proof.
  unfold Site.add_measurement.
  pose proof (dict_contains_get measurement_id (Site.measurements self)) as Hc.
  destruct (dict_get measurement_id (Site.measurements self)) as [m|];
    rewrite Hc; simpl; rewrite dict_keys_set, Hc; reflexivity.
Qed.
End SiteFacts.

Lemma NoDup_snoc {A} (l : list A) (x : A) :
  NoDup l -> ~ In x l -> NoDup (l ++ [x]).
Proof.
  induction 1 as [|a l Ha Hnd IH]; simpl; intros Hx.
  - constructor; [intros [] | constructor].
  - constructor.
    + rewrite in_app_iff. simpl. intros [H | [H | []]]; [contradiction|].
      subst. apply Hx. left. reflexivity.
    + apply IH. intro H. apply Hx. right. exact H.
Qed.

(** X10. Two calls for a measurement id that was not registered leave one series
    under it, registered last: the readings of the first call followed by
    those of the second, with the units of the first call. *)
Theorem site_two_calls_accumulate (G : Type) (self : Site.t G)
  (measurement_id : string) (data1 data2 : Series) (units1 units2 : option string) :
  dict_get measurement_id (Site.measurements self) = None ->
  let self2 := Site.add_measurement
                 (Site.add_measurement self measurement_id data1 units1)
                 measurement_id data2 units2 in
  exists m,
    dict_get measurement_id (Site.measurements self2) = Some m
    /\ s_items (MeasurementSeries.series m) = s_items data1 ++ s_items data2
    /\ s_name (MeasurementSeries.series m) = Some measurement_id
    /\ MeasurementSeries.name m = measurement_id
    /\ MeasurementSeries.units m = units1
    /\ dict_keys (Site.measurements self2)
       = dict_keys (Site.measurements self) ++ [measurement_id].
Proof.
  intros Hg. simpl.
  eexists. split.
  - rewrite site_add_lookup, String.eqb_refl. reflexivity.
  - unfold merged. rewrite site_add_lookup, String.eqb_refl.
    unfold merged. rewrite Hg. simpl. rewrite app_nil_r.
    repeat split.
    rewrite !site_add_keys.
    rewrite (dict_contains_get measurement_id
               (Site.measurements (Site.add_measurement self measurement_id data1 units1))).
    rewrite site_add_lookup, String.eqb_refl.
    rewrite dict_contains_get, Hg. reflexivity.
Qed.

Lemma site_two_calls_accumulate_witness :
  exists m,
    dict_get "Rainfall"
      (Site.measurements
         (Site.add_measurement
            (Site.add_measurement (site_S1 Empty) "Rainfall"
               {| s_name := None; s_items := [(1, Some 1%Q)] |} (Some "mm"%string))
            "Rainfall" {| s_name := None; s_items := [(1, Some 2%Q)] |} None))
    = Some m
    /\ s_items (MeasurementSeries.series m) = [(1, Some 1%Q)] ++ [(1, Some 2%Q)]
    /\ s_name (MeasurementSeries.series m) = Some "Rainfall"%string
    /\ MeasurementSeries.name m = "Rainfall"%string
    /\ MeasurementSeries.units m = Some "mm"%string
    /\ dict_keys
         (Site.measurements
            (Site.add_measurement
               (Site.add_measurement (site_S1 Empty) "Rainfall"
                  {| s_name := None; s_items := [(1, Some 1%Q)] |} (Some "mm"%string))
               "Rainfall" {| s_name := None; s_items := [(1, Some 2%Q)] |} None))
       = dict_keys (Site.measurements (site_S1 Empty)) ++ ["Rainfall"%string].
Proof.
  apply (site_two_calls_accumulate shape (site_S1 Empty) "Rainfall"
           {| s_name := None; s_items := [(1, Some 1%Q)] |}
           {| s_name := None; s_items := [(1, Some 2%Q)] |}
           (Some "mm"%string) None).
  reflexivity.
Defined.

(** * Further properties of Catchment *)

Lemma dict_set_new {V} (k : string) (v : V) (d : dict V) :
  dict_contains k d = false -> dict_set k v d = d ++ [(k, v)].
Proof.
  unfold dict_contains, dict_keys.
  induction d as [|[k' v'] d IH]; simpl; intros H.
  - reflexivity.
  - apply orb_false_elim in H. destruct H as [H1 H2].
    rewrite H1. f_equal. apply IH. exact H2.
Qed.

Section AddSite.
Context {G : Type}.
Variable size : G -> nat.

(** Every way [add_site] can end, by the value of its first condition. *)
Lemma add_site_cases (globals : Globals G) (self : Catchment.t G)
  (new_site : Site.t G) :
  (exists e, Catchment.outside size globals self new_site = Raise e
             /\ Catchment.add_site size globals self new_site = Raise e)
  \/ (Catchment.outside size globals self new_site = Ok true
      /\ Catchment.add_site size globals self new_site
         = Ok (self, [Catchment.not_within_message self new_site]))
  \/ (Catchment.outside size globals self new_site = Ok false
      /\ dict_contains (Site.name new_site) (Catchment.sites self) = true
      /\ Catchment.add_site size globals self new_site
         = Ok (self, [Catchment.already_added_message new_site]))
  \/ (Catchment.outside size globals self new_site = Ok false
      /\ dict_contains (Site.name new_site) (Catchment.sites self) = false
      /\ Catchment.add_site size globals self new_site
         = Ok ({| Catchment.name := Catchment.name self;
                  Catchment.sites := Catchment.sites self
                                     ++ [(Site.name new_site, new_site)];
                  Catchment.area := Catchment.area self |}, [])).
Proof.
  unfold Catchment.add_site.
  destruct (Catchment.outside size globals self new_site) as [[|]|e]; simpl.
  - right. left. auto.
  - rewrite already_added_contains.
    destruct (dict_contains (Site.name new_site) (Catchment.sites self)) eqn:Hc.
    + right. right. left. auto.
    + right. right. right. rewrite dict_set_new by exact Hc. auto.
  - left. exists e. auto.
Qed.

Lemma outside_raises (globals : Globals G) (self : Catchment.t G)
  (new_site : Site.t G) (e : exn) :
  Catchment.outside size globals self new_site = Raise e <->
  e = NameError "sjoin" /\ sjoin globals = None
  /\ size (Catchment.area self) <> O /\ size (Site.location new_site) <> O.
Proof.
  unfold Catchment.outside.
  destruct (Nat.eqb (size (Catchment.area self)) 0) eqn:Ha.
  - apply Nat.eqb_eq in Ha. split; [discriminate | intros [_ [_ [H _]]]; contradiction].
  - destruct (Nat.eqb (size (Site.location new_site)) 0) eqn:Hl.
    + apply Nat.eqb_eq in Hl.
      split; [discriminate | intros [_ [_ [_ H]]]; contradiction].
    + apply Nat.eqb_neq in Ha. apply Nat.eqb_neq in Hl.
      destruct (sjoin globals) as [f|]; simpl.
      * split; [discriminate | intros [_ [H _]]; discriminate].
      * split.
        -- intros H. injection H as H. subst e. auto.
        -- intros [H _]. subst e. reflexivity.
Qed.
End AddSite.

(** X12. [add_site] raises in one situation only: both geometries are defined and
    [sjoin] is unbound; what it raises is the [NameError] for [sjoin]. *)
Theorem add_site_raises_iff (G : Type) (size : G -> nat) (globals : Globals G)
  (self : Catchment.t G) (new_site : Site.t G) (e : exn) :
  Catchment.add_site size globals self new_site = Raise e <->
  e = NameError "sjoin" /\ sjoin globals = None
  /\ size (Catchment.area self) <> O /\ size (Site.location new_site) <> O.
Proof.
  rewrite <- outside_raises.
  destruct (add_site_cases size globals self new_site)
    as [[e' [Ho Ha]] | [[Ho Ha] | [[Ho [_ Ha]] | [Ho [_ Ha]]]]];
    rewrite Ho, Ha; split; intro H; try discriminate;
    injection H as H; subst e'; reflexivity.
Qed.

(** X13. A call of [add_site] that returns without printing has registered the
    candidate under its name, after the sites that were there; a call that
    returns after printing has left the catchment as it was. *)
Theorem add_site_outcomes (G : Type) (size : G -> nat) (globals : Globals G)
  (self self1 : Catchment.t G) (new_site : Site.t G) (out : list string) :
  Catchment.add_site size globals self new_site = Ok (self1, out) ->
  (out = []
   /\ dict_contains (Site.name new_site) (Catchment.sites self) = false
   /\ Catchment.sites self1 = Catchment.sites self ++ [(Site.name new_site, new_site)]
   /\ Catchment.name self1 = Catchment.name self
   /\ Catchment.area self1 = Catchment.area self)
  \/ (self1 = self
      /\ (out = [Catchment.not_within_message self new_site]
          \/ out = [Catchment.already_added_message new_site])).
Proof.
  intros H.
  destruct (add_site_cases size globals self new_site)
    as [[e' [Ho Ha]] | [[Ho Ha] | [[Ho [Hc Ha]] | [Ho [Hc Ha]]]]];
    rewrite Ha in H; try discriminate; injection H as H1 H2; subst self1 out.
  - right. auto.
  - right. auto.
  - left. simpl. auto.
Qed.

Lemma add_site_outcomes_witness :
  (@nil string = []
   /\ dict_contains (Site.name (site_S1 Empty))
        (Catchment.sites (catchment_C1 [] Empty)) = false
   /\ Catchment.sites (catchment_C1 [("S1"%string, site_S1 Empty)] Empty)
      = Catchment.sites (catchment_C1 [] Empty)
        ++ [(Site.name (site_S1 Empty), site_S1 Empty)]
   /\ Catchment.name (catchment_C1 [("S1"%string, site_S1 Empty)] Empty)
      = Catchment.name (catchment_C1 [] Empty)
   /\ Catchment.area (catchment_C1 [("S1"%string, site_S1 Empty)] Empty)
      = Catchment.area (catchment_C1 [] Empty))
  \/ (catchment_C1 [("S1"%string, site_S1 Empty)] Empty = catchment_C1 [] Empty
      /\ ([] = [Catchment.not_within_message (catchment_C1 [] Empty) (site_S1 Empty)]
          \/ [] = [Catchment.already_added_message (site_S1 Empty)])).
Proof.
  apply (add_site_outcomes shape shape_size models_py (catchment_C1 [] Empty)
           (catchment_C1 [("S1"%string, site_S1 Empty)] Empty) (site_S1 Empty) []).
  reflexivity.
Defined.

Lemma dict_get_app_l {V} (k : string) (v : V) (d d' : dict V) :
  dict_get k d = Some v -> dict_get k (d ++ d') = Some v.
Proof.
  induction d as [|[k' v'] d IH]; simpl; intros H.
  - discriminate.
  - destruct (String.eqb k k'); [exact H | apply IH; exact H].
Qed.

Lemma dict_get_snoc {V} (k k' : string) (v : V) (d : dict V) :
  dict_get k (d ++ [(k', v)])
  = match dict_get k d with
    | Some w => Some w
    | None => if String.eqb k k' then Some v else None
    end.
Proof.
  induction d as [|[k0 v0] d IH]; simpl.
  - reflexivity.
  - destruct (String.eqb k k0); [reflexivity | exact IH].
Qed.

(** X14. [add_site] never drops or replaces a site: whatever was registered
    under a name before a call that returns is registered under it after. *)
Theorem add_site_keeps_entries (G : Type) (size : G -> nat) (globals : Globals G)
  (self self1 : Catchment.t G) (new_site : Site.t G) (out : list string)
  (k : string) (s : Site.t G) :
  Catchment.add_site size globals self new_site = Ok (self1, out) ->
  dict_get k (Catchment.sites self) = Some s ->
  dict_get k (Catchment.sites self1) = Some s.
Proof.
  intros H Hk.
  destruct (add_site_cases size globals self new_site)
    as [[e' [Ho Ha]] | [[Ho Ha] | [[Ho [Hc Ha]] | [Ho [Hc Ha]]]]];
    rewrite Ha in H; try discriminate; injection H as H1 H2; subst self1 out;
    try exact Hk.
  simpl. apply dict_get_app_l. exact Hk.
Qed.

Lemma add_site_keeps_entries_witness :
  dict_get "S1"
    (Catchment.sites (catchment_C1 [("S1"%string, site_S1 (PointAt 1 1))] Empty))
  = Some (site_S1 (PointAt 1 1)).
Proof.
  apply (add_site_keeps_entries shape shape_size models_py
           (catchment_C1 [("S1"%string, site_S1 (PointAt 1 1))] Empty)
           (catchment_C1 [("S1"%string, site_S1 (PointAt 1 1))] Empty)
           (site_S1 Empty)
           [Catchment.already_added_message (site_S1 Empty)]
           "S1" (site_S1 (PointAt 1 1))).
  - reflexivity.
  - reflexivity.
Defined.

(** X15. [add_site] keeps the registry of a catchment in order: no name twice,
    and every site registered under its own name. *)
Theorem add_site_keyed (G : Type) (size : G -> nat) (globals : Globals G)
  (self self1 : Catchment.t G) (new_site : Site.t G) (out : list string) :
  Catchment.add_site size globals self new_site = Ok (self1, out) ->
  catchment_keyed self -> catchment_keyed self1.
Proof.
  intros H [Hnd Hk].
  destruct (add_site_cases size globals self new_site)
    as [[e' [Ho Ha]] | [[Ho Ha] | [[Ho [Hc Ha]] | [Ho [Hc Ha]]]]];
    rewrite Ha in H; try discriminate; injection H as H1 H2; subst self1 out;
    try (split; assumption).
  split; simpl.
  - unfold dict_keys. rewrite map_app. simpl. apply NoDup_snoc; [exact Hnd|].
    intro Hin. apply dict_contains_In in Hin. congruence.
  - intros k s. rewrite dict_get_snoc.
    destruct (dict_get k (Catchment.sites self)) as [w|] eqn:Hg.
    + intros Hw. injection Hw as Hw. subst w. apply Hk. exact Hg.
    + destruct (String.eqb k (Site.name new_site)) eqn:E; [|discriminate].
      intros Hs. injection Hs as Hs. subst s.
      apply String.eqb_eq in E. symmetry. exact E.
Qed.

Lemma add_site_keyed_witness :
  catchment_keyed (catchment_C1 [("S1"%string, site_S1 Empty)] Empty).
Proof.
  apply (add_site_keyed shape shape_size models_py (catchment_C1 [] Empty)
           (catchment_C1 [("S1"%string, site_S1 Empty)] Empty) (site_S1 Empty) []).
  - reflexivity.
  - split; [constructor | intros k s H; discriminate].
Defined.

Lemma truthy_no_coordinate (x : option Q) : no_coordinate x -> truthy x = false.
Proof.
  destruct x as [q|]; simpl; intros H; [|reflexivity].
  apply Qeq_bool_iff in H. rewrite H. reflexivity.
Qed.

(** X16. With [gpd] bound, a site built without a longitude or a latitude, or
    with either of them equal to 0, gets the empty frame for its location;
    when the empty frame has size 0, no catchment finds such a site outside
    its area, and [sjoin] is not looked up for it. *)
Theorem site_without_coordinates (G : Type) (size : G -> nat) (globals : Globals G)
  (lib : GeoPandas G) (name_ : string) (longitude latitude : option Q) :
  gpd globals = Some lib -> size (GeoDataFrame lib) = O ->
  no_coordinate longitude \/ no_coordinate latitude ->
  Site.__init__ globals name_ longitude latitude
  = Ok {| Site.name := name_; Site.measurements := [];
          Site.location := GeoDataFrame lib |}
  /\ forall self,
       Catchment.outside size globals self
         {| Site.name := name_; Site.measurements := [];
            Site.location := GeoDataFrame lib |}
       = Ok false.
Proof.
  intros Hg Hsize Hno. split.
  - unfold Site.__init__. rewrite Hg.
    assert (Hf : truthy longitude && truthy latitude = false).
    { destruct Hno as [H | H]; apply truthy_no_coordinate in H; rewrite H;
        [reflexivity | apply andb_false_r]. }
    rewrite Hf. reflexivity.
  - intros self. apply outside_skipped. right. exact Hsize.
Qed.

Lemma site_without_coordinates_witness :
  Site.__init__ with_geopandas "S1" (Some 0%Q) (Some (515 # 10)%Q)
  = Ok {| Site.name := "S1"; Site.measurements := [];
          Site.location := GeoDataFrame shape_geopandas |}
  /\ forall self,
       Catchment.outside shape_size with_geopandas self
         {| Site.name := "S1"; Site.measurements := [];
            Site.location := GeoDataFrame shape_geopandas |}
       = Ok false.
Proof.
  apply (site_without_coordinates shape shape_size with_geopandas shape_geopandas
           "S1" (Some 0%Q) (Some (515 # 10)%Q)).
  - reflexivity.
  - reflexivity.
  - left. simpl. reflexivity.
Defined.

(** X17. With [gpd] bound and an empty frame of size 0, a catchment built
    without a shapefile (or with the empty file name) starts without sites,
    registers whatever site is added first, and refuses that site as a
    duplicate when it is added again. *)
Theorem fresh_catchment_admits (G : Type) (size : G -> nat) (globals : Globals G)
  (lib : GeoPandas G) (name_ : string) (shapefile : option string)
  (new_site : Site.t G) :
  gpd globals = Some lib -> size (GeoDataFrame lib) = O ->
  shapefile = None \/ shapefile = Some EmptyString ->
  exists self self1,
    Catchment.__init__ globals name_ shapefile = Ok self
    /\ Catchment.sites self = []
    /\ Catchment.add_site size globals self new_site = Ok (self1, [])
    /\ Catchment.sites self1 = [(Site.name new_site, new_site)]
    /\ Catchment.add_site size globals self1 new_site
       = Ok (self1, [Catchment.already_added_message new_site]).
Proof.
  intros Hg Hsize Hfile.
  assert (Hinit : Catchment.__init__ globals name_ shapefile
                  = Ok {| Catchment.name := name_; Catchment.sites := [];
                          Catchment.area := GeoDataFrame lib |}).
  { unfold Catchment.__init__. rewrite Hg.
    destruct Hfile as [H | H]; subst shapefile; reflexivity. }
  eexists. eexists. split; [exact Hinit|]. split; [reflexivity|].
  assert (Hout : forall ss,
             Catchment.outside size globals
               {| Catchment.name := name_; Catchment.sites := ss;
                  Catchment.area := GeoDataFrame lib |} new_site = Ok false).
  { intros ss. apply outside_skipped. left. exact Hsize. }
  split; [|split].
  - rewrite add_site_registers; [reflexivity | apply Hout | reflexivity].
  - reflexivity.
  - unfold Catchment.add_site. simpl Catchment.sites.
    rewrite Hout. simpl. rewrite String.eqb_refl. reflexivity.
Qed.

Lemma fresh_catchment_admits_witness :
  exists self self1,
    Catchment.__init__ with_geopandas "C1" None = Ok self
    /\ Catchment.sites self = []
    /\ Catchment.add_site shape_size with_geopandas self (site_S1 (PointAt 20 20))
       = Ok (self1, [])
    /\ Catchment.sites self1
       = [(Site.name (site_S1 (PointAt 20 20)), site_S1 (PointAt 20 20))]
    /\ Catchment.add_site shape_size with_geopandas self1 (site_S1 (PointAt 20 20))
       = Ok (self1, [Catchment.already_added_message (site_S1 (PointAt 20 20))]).
Proof.
  apply (fresh_catchment_admits shape shape_size with_geopandas shape_geopandas
           "C1" None (site_S1 (PointAt 20 20))).
  - reflexivity.
  - reflexivity.
  - left. reflexivity.
Defined.

(** * read_variable_from_csv *)

Section Unique.
Context {A : Type}.
Variable eqb : A -> A -> bool.
Hypothesis eqb_spec : forall a b, eqb a b = true <-> a = b.

Lemma unique_snoc (l : list A) (x : A) :
  unique eqb (l ++ [x])
  = if existsb (eqb x) (unique eqb l) then unique eqb l else unique eqb l ++ [x].
Proof. unfold unique. rewrite fold_left_app. reflexivity. Qed.

Lemma existsb_eqb_In (x : A) (l : list A) : existsb (eqb x) l = true <-> In x l.
Proof.
  rewrite existsb_exists. split.
  - intros [y [Hin He]]. apply eqb_spec in He. subst. exact Hin.
  - intros Hin. exists x. split; [exact Hin | apply eqb_spec; reflexivity].
Qed.

Lemma unique_In (l : list A) (y : A) : In y (unique eqb l) <-> In y l.
Proof.
  induction l as [|x l IH] using rev_ind.
  - simpl. tauto.
  - rewrite unique_snoc, in_app_iff. simpl.
    destruct (existsb (eqb x) (unique eqb l)) eqn:E.
    + apply existsb_eqb_In in E. split.
      * intro H. left. apply IH. exact H.
      * intros [H | [H | []]]; [apply IH; exact H | subst; exact E].
    + rewrite in_app_iff, IH. simpl. tauto.
Qed.

Lemma unique_NoDup (l : list A) : NoDup (unique eqb l).
Proof.
  induction l as [|x l IH] using rev_ind.
  - constructor.
  - rewrite unique_snoc.
    destruct (existsb (eqb x) (unique eqb l)) eqn:E; [exact IH|].
    apply NoDup_snoc; [exact IH|]. intro Hin.
    apply existsb_eqb_In in Hin. congruence.
Qed.
End Unique.

Lemma is_unique_NoDup (labels : list Z) : is_unique labels = true <-> NoDup labels.
Proof.
  induction labels as [|t rest IH]; simpl.
  - split; [constructor | reflexivity].
  - rewrite andb_true_iff, negb_true_iff, IH. split.
    + intros [Hn Hnd]. constructor; [|exact Hnd].
      intro Hin. apply (existsb_In_Z t rest) in Hin. congruence.
    + intros H. inversion H as [|? ? Hn Hnd]; subst. split; [|exact Hnd].
      destruct (existsb (Z.eqb t) rest) eqn:E; [|reflexivity].
      apply existsb_exists in E. destruct E as [y [Hy He]].
      apply Z.eqb_eq in He. subst y. contradiction.
Qed.

Lemma nodupb_NoDup (l : list string) : NoDup l -> nodupb l = true.
Proof.
  induction 1 as [|x l Hn Hnd IH]; simpl; [reflexivity|].
  rewrite IH, andb_true_r. apply negb_true_iff.
  destruct (existsb (String.eqb x) l) eqn:E; [|reflexivity].
  apply existsb_exists in E. destruct E as [y [Hy He]].
  apply String.eqb_eq in He. subst y. contradiction.
Qed.

Lemma list_eqb_Z_eq (l1 l2 : list Z) : list_eqb Z.eqb l1 l2 = true -> l1 = l2.
Proof.
  revert l2. induction l1 as [|x l1 IH]; intros [|y l2] H; simpl in H;
    try discriminate; [reflexivity|].
  apply andb_prop in H. destruct H as [H1 H2].
  apply Z.eqb_eq in H1. subst y. f_equal. apply IH. exact H2.
Qed.

(** ** Looking a label up in a series *)

Lemma find_group_None {A} (k : Z) (items : list (Z * A)) :
  ~ In k (map fst items) -> find_group k items = None.
Proof.
  induction items as [|[k' v] items IH]; simpl; intros H.
  - reflexivity.
  - destruct (k =? k') eqn:E.
    + apply Z.eqb_eq in E. subst. exfalso. apply H. left. reflexivity.
    + apply IH. intro Hin. apply H. right. exact Hin.
Qed.

Lemma find_group_In {A} (k : Z) (v : A) (items : list (Z * A)) :
  NoDup (map fst items) -> In (k, v) items -> find_group k items = Some v.
Proof.
  induction items as [|[k' v'] items IH]; simpl; intros Hnd Hin.
  - contradiction.
  - inversion Hnd as [|? ? Hn Hnd']; subst.
    destruct Hin as [Hin | Hin].
    + injection Hin as H1 H2. subst. rewrite Z.eqb_refl. reflexivity.
    + destruct (k =? k') eqn:E.
      * apply Z.eqb_eq in E. subst k'. exfalso. apply Hn.
        apply (in_map fst _ (k, v)). exact Hin.
      * apply IH; assumption.
Qed.

Lemma value_at_keys (items : list (Z * cell)) :
  NoDup (map fst items) -> map (value_at items) (map fst items) = map snd items.
Proof.
  induction items as [|[k v] items IH]; simpl; intros Hnd.
  - reflexivity.
  - inversion Hnd as [|? ? Hn Hnd']; subst. f_equal.
    + unfold value_at. simpl. rewrite Z.eqb_refl. reflexivity.
    + rewrite <- (IH Hnd'). apply map_ext_in. intros t Ht.
      unfold value_at. simpl.
      destruct (t =? k) eqn:E; [|reflexivity].
      apply Z.eqb_eq in E. subst t. contradiction.
Qed.

Lemma reindex_spec (items : list (Z * cell)) (target : list Z) :
  NoDup target ->
  reindex items target
  = if is_unique (map fst items) then Some (map (value_at items) target) else None.
Proof.
  intros Hnd. unfold reindex.
  destruct (list_eqb Z.eqb (map fst items) target) eqn:E; [|reflexivity].
  apply list_eqb_Z_eq in E. subst target.
  rewrite (proj2 (is_unique_NoDup _) Hnd), value_at_keys by exact Hnd.
  reflexivity.
Qed.

(** ** The loop over the sites and the final sort *)

Lemma set_column_pivot (dataset : list Reading) (labels : list Z)
  (done : list string) (s : string) :
  ~ In s done ->
  set_column (pivot dataset labels done) s
    (map (value_at (site_series dataset s)) labels)
  = pivot dataset labels (done ++ [s]).
Proof.
  intros Hn. unfold set_column, column_position. simpl.
  rewrite position_None_string by exact Hn.
  unfold pivot. f_equal.
  induction labels as [|t labels IH]; simpl; [reflexivity|].
  rewrite IH, map_app. reflexivity.
Qed.

Lemma fold_left_failed (dataset : list Reading) (sites : list string) :
  fold_left
    (fun frame site =>
       match frame with
       | Some f => setitem f site (site_series dataset site)
       | None => None
       end) sites None
  = None.
Proof. induction sites as [|s sites IH]; simpl; [reflexivity | exact IH]. Qed.

Lemma fill_loop (dataset : list Reading) (labels : list Z) (rest done : list string) :
  NoDup labels -> NoDup (done ++ rest) ->
  fold_left
    (fun frame site =>
       match frame with
       | Some f => setitem f site (site_series dataset site)
       | None => None
       end) rest (Some (pivot dataset labels done))
  = if forallb (fun s => is_unique (map fst (site_series dataset s))) rest
    then Some (pivot dataset labels (done ++ rest))
    else None.
Proof.
  intros Hl. revert done. induction rest as [|s rest IH]; intros done Hnd; simpl.
  - rewrite app_nil_r. reflexivity.
  - unfold setitem at 2. simpl index. rewrite reindex_spec by exact Hl.
    destruct (is_unique (map fst (site_series dataset s))) eqn:E; simpl.
    + rewrite set_column_pivot.
      * rewrite IH by (rewrite <- app_assoc; exact Hnd).
        rewrite <- app_assoc. reflexivity.
      * apply NoDup_remove_2 in Hnd. intro Hin. apply Hnd.
        apply in_or_app. left. exact Hin.
    + apply fold_left_failed.
Qed.

Lemma insert_row_pivot (g : Z -> list cell) (t : Z) (l : list Z) :
  insert_row t (g t) (map (fun x => (x, g x)) l)
  = map (fun x => (x, g x)) (insert_label t l).
Proof.
  induction l as [|t' l IH]; simpl; [reflexivity|].
  destruct (t <=? t'); simpl; [reflexivity | rewrite IH; reflexivity].
Qed.

Lemma sort_index_pivot (dataset : list Reading) (labels : list Z)
  (sites : list string) :
  sort_index (pivot dataset labels sites)
  = pivot dataset (sort_labels labels) sites.
Proof.
  unfold sort_index, pivot. simpl.
  set (g := fun t => map (fun s => value_at (site_series dataset s) t) sites).
  assert (H : fold_right (fun e acc => insert_row (fst e) (snd e) acc) []
                (combine labels (map g labels))
              = map (fun x => (x, g x)) (sort_labels labels)).
  { induction labels as [|t labels IH]; simpl; [reflexivity|].
    rewrite IH. apply insert_row_pivot. }
  rewrite H, !map_map. simpl. rewrite map_id. reflexivity.
Qed.

Lemma insert_label_In (t x : Z) (l : list Z) :
  In x (insert_label t l) <-> x = t \/ In x l.
Proof.
  induction l as [|t' l IH]; simpl.
  - intuition.
  - destruct (t <=? t'); simpl; [intuition|]. rewrite IH. intuition.
Qed.

Lemma sort_labels_In (x : Z) (l : list Z) : In x (sort_labels l) <-> In x l.
Proof.
  induction l as [|t l IH]; simpl; [tauto|].
  rewrite insert_label_In, IH. intuition.
Qed.

Lemma insert_label_sorted (t : Z) (l : list Z) :
  StronglySorted Z.lt l -> ~ In t l -> StronglySorted Z.lt (insert_label t l).
Proof.
  induction 1 as [|t' l Hs IH Hall]; simpl; intros Hn.
  - repeat constructor.
  - destruct (t <=? t') eqn:E.
    + apply Z.leb_le in E.
      assert (Hlt : t < t') by (assert (t <> t') by (intro; apply Hn; auto); lia).
      constructor; [constructor; assumption|].
      constructor; [exact Hlt|].
      eapply Forall_impl; [|exact Hall]. intros; simpl in *; lia.
    + apply Z.leb_gt in E. constructor.
      * apply IH. intro Hin. apply Hn. right. exact Hin.
      * apply Forall_forall. intros x Hx. apply insert_label_In in Hx.
        destruct Hx as [Hx | Hx]; [lia|].
        rewrite Forall_forall in Hall. apply Hall. exact Hx.
Qed.

Lemma sort_labels_sorted (l : list Z) :
  NoDup l -> StronglySorted Z.lt (sort_labels l).
Proof.
  induction 1 as [|t l Hn Hnd IH]; simpl.
  - constructor.
  - apply insert_label_sorted; [exact IH|].
    rewrite sort_labels_In. exact Hn.
Qed.

(** ** The pivoted frame *)

Lemma pivot_wide_table (dataset : list Reading) (labels : list Z)
  (sites : list string) :
  NoDup sites -> wide_table (pivot dataset labels sites).
Proof.
  intros Hnd. unfold wide_table, wide_tableb, pivot. simpl.
  rewrite length_map, Nat.eqb_refl, (nodupb_NoDup sites Hnd), andb_true_r. simpl.
  apply forallb_forall. intros row Hin. apply in_map_iff in Hin.
  destruct Hin as [t [Ht _]]. subst row. rewrite length_map. apply Nat.eqb_refl.
Qed.

Lemma pivot_loc (dataset : list Reading) (labels : list Z) (sites : list string)
  (t : Z) (s : string) :
  In t labels -> In s sites ->
  loc (pivot dataset labels sites) t s = Some (value_at (site_series dataset s) t).
Proof.
  intros Ht Hs.
  destruct (position_In_Z t labels Ht) as [i Hi].
  destruct (position_In_string s sites Hs) as [j [Hj _]].
  unfold loc, column_position, pivot. simpl. rewrite Hi, Hj.
  destruct (position_Some_nth Z.eqb t labels i Hi) as [t' [Hnt He]].
  apply Z.eqb_eq in He. subst t'.
  destruct (position_Some_nth String.eqb s sites j Hj) as [s' [Hns He]].
  apply String.eqb_eq in He. subst s'.
  rewrite (map_nth_error _ _ _ Hnt).
  rewrite (map_nth_error (fun s0 => value_at (site_series dataset s0) t) _ _ Hns).
  reflexivity.
Qed.

Lemma site_series_keys (dataset : list Reading) (s : string) (t : Z) :
  In t (map fst (site_series dataset s)) <-> In (s, t) (map reading_key dataset).
Proof.
  unfold site_series. rewrite map_map. simpl.
  induction dataset as [|r dataset IH]; simpl; [tauto|].
  unfold reading_key at 1.
  destruct (String.eqb (r_site r) s) eqn:E; simpl.
  - apply String.eqb_eq in E. subst s. rewrite IH. split.
    + intros [H | H]; [left; rewrite H; reflexivity | right; exact H].
    + intros [H | H]; [left; congruence | right; exact H].
  - rewrite IH. apply String.eqb_neq in E. split.
    + intros H. right. exact H.
    + intros [H | H]; [congruence | exact H].
Qed.

Lemma site_series_NoDup (dataset : list Reading) :
  NoDup (map reading_key dataset) <->
  forall s, NoDup (map fst (site_series dataset s)).
Proof.
  induction dataset as [|r dataset IH].
  - simpl. split; intros; constructor.
  - split.
    + intros H s. simpl in H. inversion H as [|? ? Hn Hnd]; subst.
      pose proof (proj1 IH Hnd s) as Hs.
      unfold site_series in *. simpl.
      destruct (String.eqb (r_site r) s) eqn:E; [|exact Hs].
      simpl. constructor; [|exact Hs].
      apply String.eqb_eq in E. subst s. intro Hin.
      apply (site_series_keys dataset (r_site r) (r_date r)) in Hin.
      contradiction.
    + intros H. simpl. constructor.
      * intro Hin. apply (site_series_keys dataset (r_site r) (r_date r)) in Hin.
        specialize (H (r_site r)). unfold site_series in *. simpl in H.
        rewrite String.eqb_refl in H. simpl in H.
        inversion H; subst. contradiction.
      * apply IH. intros s. specialize (H s).
        unfold site_series in *. simpl in H.
        destruct (String.eqb (r_site r) s); [|exact H].
        simpl in H. inversion H; assumption.
Qed.

Lemma sites_unique_iff (dataset : list Reading) :
  forallb (fun s => is_unique (map fst (site_series dataset s)))
    (unique String.eqb (map r_site dataset)) = true
  <-> NoDup (map reading_key dataset).
Proof.
  rewrite site_series_NoDup, forallb_forall. split.
  - intros H s.
    destruct (in_dec string_dec s (map r_site dataset)) as [Hin | Hn].
    + apply is_unique_NoDup. apply H.
      apply (unique_In String.eqb String.eqb_eq). exact Hin.
    + destruct (map fst (site_series dataset s)) as [|t ts] eqn:He;
        [constructor|].
      exfalso. apply Hn.
      assert (Hin : In t (map fst (site_series dataset s)))
        by (rewrite He; left; reflexivity).
      apply site_series_keys in Hin. apply in_map_iff in Hin.
      destruct Hin as [r [Hk Hr]]. injection Hk as Hs _. subst s.
      apply in_map. exact Hr.
  - intros H s _. apply is_unique_NoDup. apply H.
Qed.

(** The whole function in one equation. *)
Lemma read_variable_from_csv_eq (dataset : list Reading) :
  read_variable_from_csv dataset
  = if forallb (fun s => is_unique (map fst (site_series dataset s)))
         (unique String.eqb (map r_site dataset))
    then Returned (pivot dataset
                     (sort_labels (unique Z.eqb (map r_date dataset)))
                     (unique String.eqb (map r_site dataset)))
    else ValueError.
Proof.
  unfold read_variable_from_csv.
  change (new_frame (unique Z.eqb (map r_date dataset)))
    with (pivot dataset (unique Z.eqb (map r_date dataset)) []).
  rewrite fill_loop.
  - destruct (forallb _ _); [|reflexivity].
    simpl app. rewrite sort_index_pivot. reflexivity.
  - apply (unique_NoDup Z.eqb Z.eqb_eq).
  - simpl. apply (unique_NoDup String.eqb String.eqb_eq).
Qed.

(** X18. The pivot raises exactly when some site has two readings for one
    date. *)
Theorem read_variable_from_csv_raises_iff (dataset : list Reading) :
  read_variable_from_csv dataset = ValueError
  <-> ~ NoDup (map reading_key dataset).
Proof.
  rewrite read_variable_from_csv_eq.
  destruct (forallb _ _) eqn:E.
  - apply sites_unique_iff in E. split; [discriminate | contradiction].
  - split; [|reflexivity]. intros _ Hnd.
    apply sites_unique_iff in Hnd. congruence.
Qed.

(** X19. When no site has two readings for one date the pivot returns a wide
    table: its row labels are the dates of the readings, each once, in
    ascending order; its columns are the sites of the readings, each once,
    in order of first appearance. *)
Theorem read_variable_from_csv_table (dataset : list Reading) :
  NoDup (map reading_key dataset) ->
  exists data,
    read_variable_from_csv dataset = Returned data
    /\ wide_table data
    /\ StronglySorted Z.lt (index data)
    /\ (forall t, In t (index data) <-> In t (map r_date dataset))
    /\ columns data = unique String.eqb (map r_site dataset)
    /\ NoDup (columns data)
    /\ (forall s, In s (columns data) <-> In s (map r_site dataset)).
Proof.
  intros Hnd. rewrite read_variable_from_csv_eq.
  rewrite (proj2 (sites_unique_iff dataset) Hnd).
  eexists. split; [reflexivity|].
  pose proof (unique_NoDup String.eqb String.eqb_eq (map r_site dataset)) as Hs.
  pose proof (unique_NoDup Z.eqb Z.eqb_eq (map r_date dataset)) as Hd.
  split; [apply pivot_wide_table; exact Hs|].
  split; [apply sort_labels_sorted; exact Hd|].
  split.
  - intro t. simpl. rewrite sort_labels_In.
    apply (unique_In Z.eqb Z.eqb_eq).
  - split; [reflexivity|]. split; [exact Hs|].
    intro s. apply (unique_In String.eqb String.eqb_eq).
Qed.

Lemma read_variable_from_csv_table_witness :
  exists data,
    read_variable_from_csv readings = Returned data
    /\ wide_table data
    /\ StronglySorted Z.lt (index data)
    /\ (forall t, In t (index data) <-> In t (map r_date readings))
    /\ columns data = unique String.eqb (map r_site readings)
    /\ NoDup (columns data)
    /\ (forall s, In s (columns data) <-> In s (map r_site readings)).
Proof.
  apply (read_variable_from_csv_table readings).
  vm_compute. repeat constructor; simpl; intuition discriminate.
Defined.

(** X20. In the table the pivot returns, the cell at the date and site of a
    reading holds that reading's rainfall (absent when the field was empty),
    and the cell of a date and a site that have no reading together is
    absent. *)
Theorem read_variable_from_csv_cells (dataset : list Reading) (data : DataFrame) :
  read_variable_from_csv dataset = Returned data ->
  (forall r, In r dataset -> loc data (r_date r) (r_site r) = Some (r_rainfall r))
  /\ (forall t s,
        In t (map r_date dataset) -> In s (map r_site dataset) ->
        ~ In (s, t) (map reading_key dataset) ->
        loc data t s = Some None).
Proof.
  rewrite read_variable_from_csv_eq.
  destruct (forallb _ _) eqn:E; [|discriminate].
  intros H. injection H as H. subst data.
  apply sites_unique_iff in E.
  assert (Hl : forall t, In t (map r_date dataset) ->
                 In t (sort_labels (unique Z.eqb (map r_date dataset)))).
  { intros t Ht. apply sort_labels_In. apply (unique_In Z.eqb Z.eqb_eq). exact Ht. }
  assert (Hs : forall s, In s (map r_site dataset) ->
                 In s (unique String.eqb (map r_site dataset))).
  { intros s Hin. apply (unique_In String.eqb String.eqb_eq). exact Hin. }
  split.
  - intros r Hr.
    rewrite pivot_loc by (try apply Hl; try apply Hs; apply in_map; exact Hr).
    f_equal. unfold value_at.
    rewrite (find_group_In (r_date r) (r_rainfall r)); [reflexivity | |].
    + apply site_series_NoDup. exact E.
    + unfold site_series.
      apply (in_map (fun r0 => (r_date r0, r_rainfall r0))).
      apply filter_In. split; [exact Hr | apply String.eqb_refl].
  - intros t s Ht Hin Hn.
    rewrite pivot_loc by (try apply Hl; try apply Hs; assumption).
    f_equal. unfold value_at. rewrite find_group_None; [reflexivity|].
    rewrite site_series_keys. exact Hn.
Qed.

Lemma read_variable_from_csv_cells_witness :
  (forall r, In r readings ->
     loc (pivot readings
            [at_time d2000_01_01 0 0; at_time (d2000_01_01 + 1) 0 0]
            ["FP35"; "FP23"]%string)
       (r_date r) (r_site r) = Some (r_rainfall r))
  /\ (forall t s,
        In t (map r_date readings) -> In s (map r_site readings) ->
        ~ In (s, t) (map reading_key readings) ->
        loc (pivot readings
               [at_time d2000_01_01 0 0; at_time (d2000_01_01 + 1) 0 0]
               ["FP35"; "FP23"]%string) t s = Some None).
Proof.
  apply (read_variable_from_csv_cells readings).
  vm_compute. reflexivity.
Defined.

Section UniqueOrder.
Context {A : Type}.
Variable eqb : A -> A -> bool.
Hypothesis eqb_spec : forall a b, eqb a b = true <-> a = b.

Lemma existsb_filter_other (x z : A) (l : list A) :
  eqb x z = false ->
  existsb (eqb z) (filter (fun y => negb (eqb x y)) l) = existsb (eqb z) l.
Proof.
  intros Hxz. induction l as [|y l IH]; simpl; [reflexivity|].
  destruct (eqb x y) eqn:Exy; simpl.
  - apply eqb_spec in Exy. subst y.
    assert (Hzx : eqb z x = false).
    { destruct (eqb z x) eqn:E; [|reflexivity].
      apply eqb_spec in E. subst z.
      assert (eqb x x = true) by (apply eqb_spec; reflexivity). congruence. }
    rewrite Hzx. exact IH.
  - rewrite IH. reflexivity.
Qed.

Lemma unique_cons (x : A) (l : list A) :
  unique eqb (x :: l) = x :: filter (fun y => negb (eqb x y)) (unique eqb l).
Proof.
  induction l as [|z l IH] using rev_ind.
  - reflexivity.
  - change (x :: l ++ [z]) with ((x :: l) ++ [z]).
    rewrite !unique_snoc, IH. simpl.
    destruct (eqb x z) eqn:Exz.
    + assert (Hzx : eqb z x = true).
      { apply eqb_spec in Exz. subst z. apply eqb_spec. reflexivity. }
      rewrite Hzx. simpl.
      destruct (existsb (eqb z) (unique eqb l)); [reflexivity|].
      rewrite filter_app. simpl. rewrite Exz. simpl. rewrite app_nil_r. reflexivity.
    + assert (Hzx : eqb z x = false).
      { destruct (eqb z x) eqn:E; [|reflexivity].
        apply eqb_spec in E. subst z.
        assert (eqb x x = true) by (apply eqb_spec; reflexivity). congruence. }
      rewrite Hzx. simpl. rewrite existsb_filter_other by exact Exz.
      destruct (existsb (eqb z) (unique eqb l)); [reflexivity|].
      rewrite filter_app. simpl. rewrite Exz. reflexivity.
Qed.
End UniqueOrder.

(** X21. Column order is order of first appearance: the site of the first
    reading is the first column, followed by the columns the rest of the
    readings give, without that site. *)
Theorem read_variable_from_csv_column_order (r : Reading) (dataset : list Reading)
  (data : DataFrame) :
  read_variable_from_csv (r :: dataset) = Returned data ->
  exists data',
    read_variable_from_csv dataset = Returned data'
    /\ columns data
       = r_site r :: filter (fun s => negb (String.eqb (r_site r) s)) (columns data').
Proof.
  intros H.
  assert (Hnd : NoDup (map reading_key (r :: dataset))).
  { apply sites_unique_iff. rewrite read_variable_from_csv_eq in H.
    destruct (forallb _ _); [reflexivity | discriminate]. }
  simpl in Hnd. inversion Hnd as [|? ? _ Hnd']; subst.
  rewrite read_variable_from_csv_eq in H |- *.
  rewrite (proj2 (sites_unique_iff dataset) Hnd').
  rewrite (proj2 (sites_unique_iff (r :: dataset)) Hnd) in H.
  injection H as H. subst data.
  eexists. split; [reflexivity|]. simpl.
  apply (unique_cons String.eqb String.eqb_eq).
Qed.

Lemma read_variable_from_csv_column_order_witness :
  exists data',
    read_variable_from_csv (tl readings) = Returned data'
    /\ columns (pivot readings
                  [at_time d2000_01_01 0 0; at_time (d2000_01_01 + 1) 0 0]
                  ["FP35"; "FP23"]%string)
       = "FP35"%string
         :: filter (fun s => negb (String.eqb "FP35" s)) (columns data').
Proof.
  apply (read_variable_from_csv_column_order (hd (Build_Reading 0 "" None) readings)
           (tl readings)).
  vm_compute. reflexivity.
Defined.

(** ** From the file to the daily count *)

Lemma rows_on_pivot (dataset : list Reading) (labels : list Z) (sites : list string)
  (d : Date) :
  rows_on d (pivot dataset labels sites)
  = map (fun t => map (fun s => value_at (site_series dataset s) t) sites)
      (filter (fun t => date t =? d) labels).
Proof.
  unfold rows_on, pivot. simpl.
  induction labels as [|t labels IH]; simpl; [reflexivity|].
  destruct (date t =? d); simpl; rewrite IH; reflexivity.
Qed.

Lemma present_length (h : Z -> cell) (l : list Z) :
  length (present (map h l)) = length (filter (fun t => is_present (h t)) l).
Proof.
  induction l as [|t l IH]; simpl; [reflexivity|].
  destruct (h t); simpl; rewrite IH; reflexivity.
Qed.

Lemma kept_keys_distinct {R K} (key : R -> K) (keep : R -> bool) (items : list R) :
  NoDup (map key items) -> NoDup (map key (filter keep items)).
Proof.
  induction items as [|r items IH]; simpl; intros H; [constructor|].
  inversion H as [|? ? Hn Hnd]; subst.
  destruct (keep r); simpl; [|apply IH; exact Hnd].
  constructor; [|apply IH; exact Hnd].
  intro Hin. apply Hn. apply in_map_iff in Hin.
  destruct Hin as [r' [Hr' Hin]]. apply filter_In in Hin.
  rewrite <- Hr'. apply in_map. tauto.
Qed.

Lemma find_group_Some_In {A} (k : Z) (v : A) (items : list (Z * A)) :
  find_group k items = Some v -> In (k, v) items.
Proof.
  induction items as [|[k' v'] items IH]; simpl; intros H; [discriminate|].
  destruct (k =? k') eqn:E.
  - apply Z.eqb_eq in E. injection H as H. subst. left. reflexivity.
  - right. apply IH. exact H.
Qed.

Lemma valued_readings_dates (dataset : list Reading) (labels : list Z)
  (s : string) (d : Date) :
  NoDup (map reading_key dataset) -> NoDup labels ->
  (forall t, In t labels <-> In t (map r_date dataset)) ->
  Permutation
    (map r_date (valued_readings dataset s d))
    (filter (fun t => is_present (value_at (site_series dataset s) t))
       (filter (fun t => date t =? d) labels)).
Proof.
  intros Hk Hl Hin.
  assert (Hser : NoDup (map fst (site_series dataset s)))
    by (apply site_series_NoDup; exact Hk).
  apply NoDup_Permutation.
  - unfold valued_readings. apply kept_keys_distinct.
    unfold site_series in Hser. rewrite map_map in Hser. exact Hser.
  - apply NoDup_filter. apply NoDup_filter. exact Hl.
  - intro t. rewrite !filter_In, in_map_iff. unfold valued_readings. split.
    + intros [r [Ht Hr]]. apply filter_In in Hr. destruct Hr as [Hr Hb].
      apply andb_prop in Hb. destruct Hb as [Hd Hp]. subst t.
      assert (Hv : value_at (site_series dataset s) (r_date r) = r_rainfall r).
      { unfold value_at.
        rewrite (find_group_In (r_date r) (r_rainfall r)); [reflexivity | exact Hser |].
        unfold site_series. apply (in_map (fun r0 => (r_date r0, r_rainfall r0))).
        exact Hr. }
      apply filter_In in Hr. destruct Hr as [Hr _].
      split; [split; [|exact Hd] | rewrite Hv; exact Hp].
      apply Hin. apply in_map. exact Hr.
    + intros [[_ Hd] Hp]. unfold value_at in Hp.
      destruct (find_group t (site_series dataset s)) as [c|] eqn:Hf; [|discriminate].
      apply find_group_Some_In in Hf. unfold site_series in Hf.
      apply in_map_iff in Hf. destruct Hf as [r [Hr Hf]].
      injection Hr as Hr1 Hr2. exists r. split; [exact Hr1|].
      apply filter_In. split; [exact Hf|].
      rewrite Hr1, Hr2, Hd, Hp. reflexivity.
Qed.

(** X22. The daily count of the table read from the file: on a date and for a
    site of the readings, it is the number of that site's readings on that
    date that carry a value. *)
Theorem daily_count_of_readings (dataset : list Reading) (data : DataFrame)
  (s : string) (d : Date) :
  read_variable_from_csv dataset = Returned data ->
  In d (map date (map r_date dataset)) -> In s (map r_site dataset) ->
  loc (daily_count data) d s
  = Some (Some (of_nat (length (valued_readings dataset s d)))).
Proof.
  rewrite read_variable_from_csv_eq.
  destruct (forallb _ _) eqn:E; [|discriminate].
  intros H Hd Hs. injection H as H. apply sites_unique_iff in E.
  set (labels := sort_labels (unique Z.eqb (map r_date dataset))) in *.
  set (sites := unique String.eqb (map r_site dataset)) in *.
  assert (Hlab : forall t, In t labels <-> In t (map r_date dataset)).
  { intro t. unfold labels. rewrite sort_labels_In.
    apply (unique_In Z.eqb Z.eqb_eq). }
  assert (Hl : NoDup labels).
  { apply StronglySorted_lt_NoDup. apply sort_labels_sorted.
    apply (unique_NoDup Z.eqb Z.eqb_eq). }
  assert (Hsites : In s sites)
    by (apply (unique_In String.eqb String.eqb_eq); exact Hs).
  assert (Hw : wide_table data).
  { subst data. apply pivot_wide_table.
    apply (unique_NoDup String.eqb String.eqb_eq). }
  assert (Hdate : In d (index_date data)).
  { subst data. unfold index_date. simpl. apply in_map_iff in Hd.
    destruct Hd as [t [Ht Hin]]. subst d. apply in_map. apply Hlab. exact Hin. }
  assert (Hcol : In s (columns data)) by (subst data; exact Hsites).
  change (daily_count data) with (aggregated count_kernel data).
  rewrite agg_loc by assumption. rewrite count_value. do 3 f_equal.
  destruct (position_In_string s sites Hsites) as [j [Hj _]].
  destruct (position_Some_nth String.eqb s sites j Hj) as [s' [Hns He]].
  apply String.eqb_eq in He. subst s'.
  unfold partition_values, column_position. subst data. simpl columns.
  rewrite Hj, rows_on_pivot, map_map.
  rewrite (map_ext _ (value_at (site_series dataset s))).
  - rewrite present_length. symmetry.
    rewrite <- (length_map r_date). apply Permutation_length.
    apply valued_readings_dates; assumption.
  - intros t. unfold at_column. apply nth_error_nth.
    apply (map_nth_error (fun s0 => value_at (site_series dataset s0) t)).
    exact Hns.
Qed.

Lemma daily_count_of_readings_witness :
  loc (daily_count (pivot readings
                      [at_time d2000_01_01 0 0; at_time (d2000_01_01 + 1) 0 0]
                      ["FP35"; "FP23"]%string))
    d2000_01_01 "FP23"
  = Some (Some (of_nat (length (valued_readings readings "FP23" d2000_01_01)))).
Proof.
  apply (daily_count_of_readings readings).
  - vm_compute. reflexivity.
  - vm_compute. right. left. reflexivity.
  - simpl. right. right. left. reflexivity.
Defined.

(** * Sites whose Series are shared *)

Lemma dict_get_set {V} (k id : string) (v : V) (d : dict V) :
  dict_get k (dict_set id v d) = if String.eqb k id then Some v else dict_get k d.
Proof.
  destruct (String.eqb k id) eqn:E.
  - apply String.eqb_eq in E. subst k. apply dict_get_set_same.
  - apply dict_get_set_other. apply String.eqb_neq. exact E.
Qed.

(** X9. [Site.add_measurement] keeps the registry of a site in order (every
    series an object of the store, no measurement id twice, every
    registered series named after its id) provided the Series passed is not
    the one registered under another id. *)
Theorem site_registry_named (G : Type) (st : store) (self : SiteRef.t G)
  (measurement_id : string) (data : nat) (units : option string) :
  SiteRef.valid st self -> SiteRef.named st self -> (data < length st)%nat ->
  (forall k m, dict_get k (SiteRef.measurements self) = Some m ->
     k <> measurement_id -> MeasurementSeriesRef.series m <> data) ->
  SiteRef.valid (fst (SiteRef.add_measurement st self measurement_id data units))
    (snd (SiteRef.add_measurement st self measurement_id data units))
  /\ SiteRef.named (fst (SiteRef.add_measurement st self measurement_id data units))
       (snd (SiteRef.add_measurement st self measurement_id data units)).
Proof.
  intros Hvalid [Hnd Hnames] Hdata Hfresh.
  destruct (dict_get measurement_id (SiteRef.measurements self)) as [m0|] eqn:Hg.
  - rewrite (ref_add_existing st self measurement_id data units m0 Hg). simpl.
    destruct (Hnames _ _ Hg) as [Hn0 _].
    assert (Hlen : forall x n, length (rename (st ++ [x]) (length st) n)
                               = S (length st)).
    { intros x n. rewrite length_rename, length_app. simpl. lia. }
    split; [|split].
    + intros k m. simpl. rewrite dict_get_set, Hlen.
      destruct (String.eqb k measurement_id).
      * intros H. injection H as H. subst m. simpl. lia.
      * intros H. apply Hvalid in H. lia.
    + simpl. rewrite dict_keys_set, dict_contains_get, Hg. exact Hnd.
    + intros k m. simpl. rewrite dict_get_set.
      destruct (String.eqb k measurement_id) eqn:E.
      * apply String.eqb_eq in E. subst k.
        intros H. injection H as H. subst m. simpl.
        split; [exact Hn0|].
        rewrite deref_rename, Nat.eqb_refl, length_app. simpl.
        assert (H : Nat.ltb (length st) (length st + 1) = true)
          by (apply Nat.ltb_lt; lia).
        rewrite H. simpl. rewrite Hn0. reflexivity.
      * intros H. destruct (Hnames _ _ H) as [H1 H2]. split; [exact H1|].
        pose proof (Hvalid _ _ H) as Hv.
        rewrite deref_rename.
        assert (E' : Nat.eqb (MeasurementSeriesRef.series m) (length st) = false)
          by (apply Nat.eqb_neq; lia).
        rewrite E'. simpl. rewrite deref_old by exact Hv. exact H2.
  - rewrite (ref_add_new st self measurement_id data units Hg). simpl.
    split; [|split].
    + intros k m. simpl. rewrite dict_get_set, length_rename.
      destruct (String.eqb k measurement_id).
      * intros H. injection H as H. subst m. simpl. exact Hdata.
      * apply Hvalid.
    + simpl. rewrite dict_keys_set, dict_contains_get, Hg.
      apply NoDup_snoc; [exact Hnd|]. intro Hin.
      apply dict_contains_In in Hin. rewrite dict_contains_get, Hg in Hin.
      discriminate.
    + intros k m. simpl. rewrite dict_get_set.
      destruct (String.eqb k measurement_id) eqn:E.
      * apply String.eqb_eq in E. subst k.
        intros H. injection H as H. subst m. simpl. split; [reflexivity|].
        rewrite deref_rename, Nat.eqb_refl.
        apply Nat.ltb_lt in Hdata. rewrite Hdata. reflexivity.
      * intros H. destruct (Hnames _ _ H) as [H1 H2]. split; [exact H1|].
        apply String.eqb_neq in E. pose proof (Hfresh _ _ H E) as Hne.
        rewrite deref_rename.
        assert (E' : Nat.eqb (MeasurementSeriesRef.series m) data = false)
          by (apply Nat.eqb_neq; exact Hne).
        rewrite E'. exact H2.
Qed.

Lemma site_registry_named_witness :
  SiteRef.valid (fst (SiteRef.add_measurement store_R (site_R1 rainfall_R) "Level" 1 None))
    (snd (SiteRef.add_measurement store_R (site_R1 rainfall_R) "Level" 1 None))
  /\ SiteRef.named (fst (SiteRef.add_measurement store_R (site_R1 rainfall_R) "Level" 1 None))
       (snd (SiteRef.add_measurement store_R (site_R1 rainfall_R) "Level" 1 None)).
Proof.
  apply (site_registry_named shape store_R (site_R1 rainfall_R) "Level" 1 None).
  - intros k m. simpl. destruct (String.eqb k "Rainfall"); [|discriminate].
    intros H. injection H as H. subst m. simpl. lia.
  - split.
    + simpl. repeat constructor. simpl. tauto.
    + intros k m. simpl. destruct (String.eqb k "Rainfall") eqn:E; [|discriminate].
      apply String.eqb_eq in E. subst k.
      intros H. injection H as H. subst m. simpl. split; reflexivity.
  - simpl. lia.
  - intros k m. simpl. destruct (String.eqb k "Rainfall"); [|discriminate].
    intros H. injection H as H. subst m. simpl. discriminate.
Defined.

(** X23. One Series registered under two new measurement ids is one object:
    both entries hold it, it is named after the second id, and the registry
    is no longer in order (the first entry's series does not carry the
    first id). *)
Theorem shared_series_renamed (G : Type) (st : store) (self : SiteRef.t G)
  (id1 id2 : string) (data : nat) (units1 units2 : option string) :
  id1 <> id2 -> (data < length st)%nat ->
  dict_get id1 (SiteRef.measurements self) = None ->
  dict_get id2 (SiteRef.measurements self) = None ->
  let first := SiteRef.add_measurement st self id1 data units1 in
  let second := SiteRef.add_measurement (fst first) (snd first) id2 data units2 in
  dict_get id1 (SiteRef.measurements (snd second))
  = Some {| MeasurementSeriesRef.series := data; MeasurementSeriesRef.name := id1;
            MeasurementSeriesRef.units := units1 |}
  /\ dict_get id2 (SiteRef.measurements (snd second))
     = Some {| MeasurementSeriesRef.series := data; MeasurementSeriesRef.name := id2;
               MeasurementSeriesRef.units := units2 |}
  /\ s_name (deref (fst second) data) = Some id2
  /\ ~ SiteRef.named (fst second) (snd second).
Proof.
  intros Hne Hdata H1 H2. simpl.
  rewrite (ref_add_new st self id1 data units1 H1).
  assert (H2' : dict_get id2
                  (SiteRef.measurements
                     (snd (rename st data id1,
                           {| SiteRef.name := SiteRef.name self;
                              SiteRef.measurements :=
                                dict_set id1
                                  {| MeasurementSeriesRef.series := data;
                                     MeasurementSeriesRef.name := id1;
                                     MeasurementSeriesRef.units := units1 |}
                                  (SiteRef.measurements self);
                              SiteRef.location := SiteRef.location self |}))) = None).
  { simpl. rewrite dict_get_set_other by (intro; apply Hne; congruence). exact H2. }
  rewrite (ref_add_new _ _ id2 data units2 H2'). simpl.
  assert (Hname : s_name (deref (rename (rename st data id1) data id2) data) = Some id2).
  { rewrite deref_rename, Nat.eqb_refl, length_rename.
    apply Nat.ltb_lt in Hdata. rewrite Hdata. reflexivity. }
  assert (Hfirst : dict_get id1
                     (dict_set id2
                        {| MeasurementSeriesRef.series := data;
                           MeasurementSeriesRef.name := id2;
                           MeasurementSeriesRef.units := units2 |}
                        (dict_set id1
                           {| MeasurementSeriesRef.series := data;
                              MeasurementSeriesRef.name := id1;
                              MeasurementSeriesRef.units := units1 |}
                           (SiteRef.measurements self)))
                   = Some {| MeasurementSeriesRef.series := data;
                             MeasurementSeriesRef.name := id1;
                             MeasurementSeriesRef.units := units1 |}).
  { rewrite dict_get_set_other by exact Hne. apply dict_get_set_same. }
  split; [exact Hfirst|]. split; [apply dict_get_set_same|].
  split; [exact Hname|].
  intros [_ Hnames]. destruct (Hnames _ _ Hfirst) as [_ Hbad].
  simpl in Hbad. rewrite Hname in Hbad. injection Hbad as Hbad.
  apply Hne. symmetry. exact Hbad.
Qed.

Lemma shared_series_renamed_witness :
  let first := SiteRef.add_measurement store_R (site_R1 []) "A" 1 None in
  let second := SiteRef.add_measurement (fst first) (snd first) "B" 1 None in
  dict_get "A" (SiteRef.measurements (snd second))
  = Some {| MeasurementSeriesRef.series := 1; MeasurementSeriesRef.name := "A";
            MeasurementSeriesRef.units := None |}
  /\ dict_get "B" (SiteRef.measurements (snd second))
     = Some {| MeasurementSeriesRef.series := 1; MeasurementSeriesRef.name := "B";
               MeasurementSeriesRef.units := None |}
  /\ s_name (deref (fst second) 1) = Some "B"%string
  /\ ~ SiteRef.named (fst second) (snd second).
Proof.
  apply (shared_series_renamed shape store_R (site_R1 []) "A" "B" 1 None None).
  - discriminate.
  - simpl. lia.
  - reflexivity.
  - reflexivity.
Defined.

Lemma deref_snoc (st : store) (x : Series) (q : nat) :
  deref (st ++ [x]) q
  = if Nat.ltb q (length st) then deref st q
    else if Nat.eqb q (length st) then x else no_series.
Proof.
  destruct (Nat.ltb_spec q (length st)) as [H | H].
  - apply deref_old. exact H.
  - destruct (Nat.eqb_spec q (length st)) as [E | E].
    + subst q. apply deref_new.
    + unfold deref. apply nth_overflow. rewrite length_app. simpl. lia.
Qed.

Lemma length_snoc (st : store) (x : Series) : length (st ++ [x]) = S (length st).
Proof. rewrite length_app. simpl. lia. Qed.

Ltac store_cases :=
  repeat rewrite ?deref_rename, ?deref_snoc, ?length_rename, ?length_snoc;
  repeat match goal with
         | |- context [Nat.eqb ?a ?b] => destruct (Nat.eqb_spec a b); try lia
         | |- context [Nat.ltb ?a ?b] => destruct (Nat.ltb_spec a b); try lia
         end;
  subst; simpl; try reflexivity; try congruence; try lia.

(** X11. Calls for two different measurement ids with two different Series
    can be made in either order: every id then holds the same series, with
    the same name and units. *)
Theorem site_calls_commute (G : Type) (st : store) (self : SiteRef.t G)
  (id1 id2 : string) (data1 data2 : nat) (units1 units2 : option string)
  (k : string) :
  id1 <> id2 -> data1 <> data2 ->
  SiteRef.valid st self -> (data1 < length st)%nat -> (data2 < length st)%nat ->
  let a1 := SiteRef.add_measurement st self id1 data1 units1 in
  let a2 := SiteRef.add_measurement (fst a1) (snd a1) id2 data2 units2 in
  let b1 := SiteRef.add_measurement st self id2 data2 units2 in
  let b2 := SiteRef.add_measurement (fst b1) (snd b1) id1 data1 units1 in
  SiteRef.lookup (fst a2) (snd a2) k = SiteRef.lookup (fst b2) (snd b2) k.
Proof.
  intros Hid Hdata Hvalid Hd1 Hd2. cbv zeta.
  assert (H12 : String.eqb id1 id2 = false) by (apply String.eqb_neq; exact Hid).
  assert (H21 : String.eqb id2 id1 = false)
    by (apply String.eqb_neq; intro; apply Hid; congruence).
  assert (Hk : String.eqb k id1 = true -> String.eqb k id2 = true -> False).
  { intros E1 E2. apply String.eqb_eq in E1. apply String.eqb_eq in E2. congruence. }
  destruct (dict_get id1 (SiteRef.measurements self)) as [m1|] eqn:G1;
    destruct (dict_get id2 (SiteRef.measurements self)) as [m2|] eqn:G2.
  - pose proof (Hvalid _ _ G1) as V1. pose proof (Hvalid _ _ G2) as V2.
    rewrite (ref_add_existing st self id1 data1 units1 m1 G1).
    rewrite (ref_add_existing st self id2 data2 units2 m2 G2).
    rewrite (ref_add_existing _ _ id2 data2 units2 m2)
      by (simpl; rewrite dict_get_set, H21; exact G2).
    rewrite (ref_add_existing _ _ id1 data1 units1 m1)
      by (simpl; rewrite dict_get_set, H12; exact G1).
    unfold SiteRef.lookup. simpl. rewrite !dict_get_set.
    destruct (String.eqb k id1) eqn:E1; destruct (String.eqb k id2) eqn:E2;
      try (exfalso; apply Hk; reflexivity); simpl.
    + f_equal. unfold MeasurementSeriesRef.view. simpl. f_equal. store_cases.
    + f_equal. unfold MeasurementSeriesRef.view. simpl. f_equal. store_cases.
    + destruct (dict_get k (SiteRef.measurements self)) as [m|] eqn:Gk;
        [|reflexivity].
      pose proof (Hvalid _ _ Gk) as Vk. simpl.
      f_equal. unfold MeasurementSeriesRef.view. f_equal. store_cases.
  - pose proof (Hvalid _ _ G1) as V1.
    rewrite (ref_add_existing st self id1 data1 units1 m1 G1).
    rewrite (ref_add_new st self id2 data2 units2 G2).
    rewrite (ref_add_new _ _ id2 data2 units2)
      by (simpl; rewrite dict_get_set, H21; exact G2).
    rewrite (ref_add_existing _ _ id1 data1 units1 m1)
      by (simpl; rewrite dict_get_set, H12; exact G1).
    unfold SiteRef.lookup. simpl. rewrite !dict_get_set.
    destruct (String.eqb k id1) eqn:E1; destruct (String.eqb k id2) eqn:E2;
      try (exfalso; apply Hk; reflexivity); simpl.
    + f_equal. unfold MeasurementSeriesRef.view. simpl. f_equal. store_cases.
    + f_equal. unfold MeasurementSeriesRef.view. simpl. f_equal. store_cases.
    + destruct (dict_get k (SiteRef.measurements self)) as [m|] eqn:Gk;
        [|reflexivity].
      pose proof (Hvalid _ _ Gk) as Vk. simpl.
      f_equal. unfold MeasurementSeriesRef.view. f_equal. store_cases.
  - pose proof (Hvalid _ _ G2) as V2.
    rewrite (ref_add_new st self id1 data1 units1 G1).
    rewrite (ref_add_existing st self id2 data2 units2 m2 G2).
    rewrite (ref_add_existing _ _ id2 data2 units2 m2)
      by (simpl; rewrite dict_get_set, H21; exact G2).
    rewrite (ref_add_new _ _ id1 data1 units1)
      by (simpl; rewrite dict_get_set, H12; exact G1).
    unfold SiteRef.lookup. simpl. rewrite !dict_get_set.
    destruct (String.eqb k id1) eqn:E1; destruct (String.eqb k id2) eqn:E2;
      try (exfalso; apply Hk; reflexivity); simpl.
    + f_equal. unfold MeasurementSeriesRef.view. simpl. f_equal. store_cases.
    + f_equal. unfold MeasurementSeriesRef.view. simpl. f_equal. store_cases.
    + destruct (dict_get k (SiteRef.measurements self)) as [m|] eqn:Gk;
        [|reflexivity].
      pose proof (Hvalid _ _ Gk) as Vk. simpl.
      f_equal. unfold MeasurementSeriesRef.view. f_equal. store_cases.
  - rewrite (ref_add_new st self id1 data1 units1 G1).
    rewrite (ref_add_new st self id2 data2 units2 G2).
    rewrite (ref_add_new _ _ id2 data2 units2)
      by (simpl; rewrite dict_get_set, H21; exact G2).
    rewrite (ref_add_new _ _ id1 data1 units1)
      by (simpl; rewrite dict_get_set, H12; exact G1).
    unfold SiteRef.lookup. simpl. rewrite !dict_get_set.
    destruct (String.eqb k id1) eqn:E1; destruct (String.eqb k id2) eqn:E2;
      try (exfalso; apply Hk; reflexivity); simpl.
    + f_equal. unfold MeasurementSeriesRef.view. simpl. f_equal. store_cases.
    + f_equal. unfold MeasurementSeriesRef.view. simpl. f_equal. store_cases.
    + destruct (dict_get k (SiteRef.measurements self)) as [m|] eqn:Gk;
        [|reflexivity].
      pose proof (Hvalid _ _ Gk) as Vk. simpl.
      f_equal. unfold MeasurementSeriesRef.view. f_equal. store_cases.
Qed.

Lemma site_calls_commute_witness :
  let a1 := SiteRef.add_measurement store_R (site_R1 rainfall_R) "Rainfall" 1 None in
  let a2 := SiteRef.add_measurement (fst a1) (snd a1) "Level" 0 None in
  let b1 := SiteRef.add_measurement store_R (site_R1 rainfall_R) "Level" 0 None in
  let b2 := SiteRef.add_measurement (fst b1) (snd b1) "Rainfall" 1 None in
  SiteRef.lookup (fst a2) (snd a2) "Rainfall" = SiteRef.lookup (fst b2) (snd b2) "Rainfall".
Proof.
  apply (site_calls_commute shape store_R (site_R1 rainfall_R) "Rainfall" "Level"
           1 0 None None "Rainfall").
  - discriminate.
  - discriminate.
  - intros k m. simpl. destruct (String.eqb k "Rainfall"); [|discriminate].
    intros H. injection H as H. subst m. simpl. lia.
  - simpl. lia.
  - simpl. lia.
Defined.

Example site_calls_commute_value :
  let a1 := SiteRef.add_measurement store_R (site_R1 rainfall_R) "Rainfall" 1 None in
  let a2 := SiteRef.add_measurement (fst a1) (snd a1) "Level" 0 None in
  SiteRef.lookup (fst a2) (snd a2) "Rainfall"
  = Some {| MeasurementSeries.series :=
              {| s_name := Some "Rainfall"%string;
                 s_items := [(1, Some 1%Q); (2, Some 5%Q)] |};
            MeasurementSeries.name := "Rainfall";
            MeasurementSeries.units := Some "mm"%string |}
  /\ SiteRef.lookup (fst a2) (snd a2) "Level"
     = Some {| MeasurementSeries.series :=
                 {| s_name := Some "Level"%string; s_items := [(1, Some 1%Q)] |};
               MeasurementSeries.name := "Level";
               MeasurementSeries.units := None |}.
Proof. split; reflexivity. Qed.

(** * The idealised arithmetic as an instance

    In exact arithmetic the daily functions of [daily_in] give the cells of
    [daily], the frames with rational sums and means. *)

Lemma sum_value (vals : list Q) :
  finish (sum_kernel 0) (fold_left (step (sum_kernel 0)) vals (init (sum_kernel 0)))
  = Some (fold_left Qplus vals 0%Q).
Proof.
  change (init (sum_kernel 0)) with (O, 0%Q). rewrite sum_run. reflexivity.
Qed.

Lemma daily_in_exact (r : Reducer) (data : DataFrame) (d : Date) (c : string) :
  wide_table data -> In d (index_date data) -> In c (columns data) ->
  loc (daily_in exact_arithmetic r data) d c = loc (daily r data) d c.
Proof.
  intros Hw Hd Hc. destruct r; try reflexivity; simpl daily_in.
  - unfold daily_total_in. rewrite (agg_by_column_loc _ data Hw d c Hd Hc).
    change (daily Total data) with (aggregated (sum_kernel 0) data).
    rewrite agg_loc by assumption. rewrite sum_value. simpl. rewrite gathered.
    simpl. destruct (partition_values data d c); reflexivity.
  - unfold daily_mean_in. rewrite (agg_by_column_loc _ data Hw d c Hd Hc).
    change (daily Mean data) with (aggregated mean_kernel data).
    rewrite agg_loc by assumption. rewrite mean_value. simpl. rewrite gathered.
    simpl. destruct (partition_values data d c); reflexivity.
Qed.
